(** * nf_conntrack_ssdp: connection-tracking helper for UPnP SSDP

    A shallow embedding of [nf_conntrack_ssdp.c] and the properties of its
    packet handler [ssdp_help] and subnet resolver [ssdp_src_netmask].

    The helper talks to three collaborators that live outside the source
    file: the packet buffer ([skb_header_pointer]), the interface address
    configuration ([in_dev_get] / [in_dev_put]) and the expectation table
    ([nf_ct_expect_alloc] / [nf_ct_expect_related] / [nf_ct_expect_put]).
    Every call that crosses that boundary is recorded as an event, so that a
    run of the helper is a verdict together with the ordered list of what it
    asked its collaborators to do. *)

From Stdlib Require Import ZArith List Bool Lia.
From Stdlib Require Import Strings.String Strings.Byte.
Import ListNotations.

Local Open Scope Z_scope.

(* ================================================================== *)
(** ** Fixed-width integers and byte order *)

(** [__be32] and [__be16] hold the value the CPU reads from a big-endian
    field; they are only ever compared and copied by the helper. *)
Definition be32 := Z.
Definition be16 := Z.

Definition bswap16 (x : Z) : Z :=
  Z.lor (Z.shiftl (Z.land x 255) 8) (Z.land (Z.shiftr x 8) 255).

Definition bswap32 (x : Z) : Z :=
  Z.lor (Z.lor (Z.shiftl (Z.land x 255) 24)
               (Z.shiftl (Z.land (Z.shiftr x 8) 255) 16))
        (Z.lor (Z.shiftl (Z.land (Z.shiftr x 16) 255) 8)
               (Z.land (Z.shiftr x 24) 255)).

(** [unsigned int] arithmetic and the conversion of its result to [int]. *)
Definition u32 (x : Z) : Z := x mod 2 ^ 32.
Definition to_int (x : Z) : Z := if x <? 2 ^ 31 then x else x - 2 ^ 32.

(* ================================================================== *)
(** ** Kernel data structures used by the helper *)

(** These types are declared in kernel headers, not in the source file: each
    record lists the members the source reads or writes, under the names the
    source uses for them. *)

(** [union nf_inet_addr]: sixteen bytes, of which [ip] is the first word. *)
Record nf_inet_addr := mk_inet_addr {
  ip : be32;
  all1 : Z;
  all2 : Z;
  all3 : Z
}.

(** [struct nf_conntrack_man]; [udp_port] is [u.udp.port]. *)
Record nf_conntrack_man := mk_man {
  u3 : nf_inet_addr;
  udp_port : be16;
  l3num : Z
}.

(** The anonymous [dst] member of [struct nf_conntrack_tuple]. *)
Record nf_conntrack_dst := mk_dst {
  dst_u3 : nf_inet_addr;
  dst_udp_port : be16;
  protonum : Z;
  dir : Z
}.

Record nf_conntrack_tuple := mk_tuple {
  src : nf_conntrack_man;
  dst : nf_conntrack_dst
}.

(** Modelled from the spec: the layout of an expectation's mask, whose
    declaration is in a kernel header and not in the source file.  The spec
    describes the mask field by field over the tuple ("a zero mask field
    means don't care"), so the mask carries one field per tuple field. *)
Definition nf_conntrack_tuple_mask := nf_conntrack_tuple.

Inductive ip_conntrack_dir := IP_CT_DIR_ORIGINAL | IP_CT_DIR_REPLY.

Inductive ip_conntrack_info :=
  | IP_CT_ESTABLISHED
  | IP_CT_RELATED
  | IP_CT_NEW
  | IP_CT_ESTABLISHED_REPLY
  | IP_CT_RELATED_REPLY.

(** [struct nf_conn]: the two entries of [tuplehash]. *)
Record nf_conn := mk_conn {
  tuple_original : nf_conntrack_tuple;
  tuple_reply : nf_conntrack_tuple
}.

Definition tuplehash (ct : nf_conn) (d : ip_conntrack_dir) : nf_conntrack_tuple :=
  match d with
  | IP_CT_DIR_ORIGINAL => tuple_original ct
  | IP_CT_DIR_REPLY => tuple_reply ct
  end.

(** [struct in_ifaddr]; the [ifa_next] chain is the list that holds it. *)
Record in_ifaddr := mk_ifaddr {
  ifa_local : be32;
  ifa_mask : be32;
  ifa_label : string
}.

Record in_device := mk_in_device {
  ifa_list : list in_ifaddr
}.

(** [struct net_device]: [ip_ptr] is [None] when the device has no IPv4
    configuration, which is when [in_dev_get] returns [NULL]. *)
Record net_device := mk_net_device {
  name : string;
  ip_ptr : option in_device
}.

(** [struct sk_buff]: the receiving device and the packet's bytes; the
    length of [data] is the length the buffer declares. *)
Record sk_buff := mk_skb {
  dev : net_device;
  data : list byte
}.

(** Modelled from the spec: [struct nf_conntrack_expect], which is declared
    in a kernel header and not in the source file.  The record has the
    members the source names ([tuple], [mask], [expectfn], [flags], [class],
    [helper]) and [master], which [nf_ct_expect_alloc] sets; members of the
    kernel's struct that the source never touches are not represented, so
    nothing is said about them.  Pointers to functions and helpers are
    addresses, [None] being [NULL]. *)
Record nf_conntrack_expect := mk_expect {
  tuple : nf_conntrack_tuple;
  mask : nf_conntrack_tuple_mask;
  expectfn : option Z;
  flags : Z;
  class : Z;
  helper : option Z;
  master : nf_conn
}.

Record nf_conntrack_expect_policy := mk_policy {
  max_expected : Z;
  timeout : Z;
  policy_name : string
}.

(* Field assignments. *)

Definition set_ip (a : nf_inet_addr) (v : be32) : nf_inet_addr :=
  mk_inet_addr v (all1 a) (all2 a) (all3 a).

Definition set_src_u3_ip (t : nf_conntrack_tuple) (v : be32) : nf_conntrack_tuple :=
  mk_tuple (mk_man (set_ip (u3 (src t)) v) (udp_port (src t)) (l3num (src t)))
           (dst t).

Definition set_src_udp_port (t : nf_conntrack_tuple) (v : be16) : nf_conntrack_tuple :=
  mk_tuple (mk_man (u3 (src t)) v (l3num (src t))) (dst t).

Definition set_tuple (e : nf_conntrack_expect) (t : nf_conntrack_tuple) :=
  mk_expect t (mask e) (expectfn e) (flags e) (class e) (helper e) (master e).

Definition set_mask (e : nf_conntrack_expect) (m : nf_conntrack_tuple_mask) :=
  mk_expect (tuple e) m (expectfn e) (flags e) (class e) (helper e) (master e).

Definition set_expectfn (e : nf_conntrack_expect) (f : option Z) :=
  mk_expect (tuple e) (mask e) f (flags e) (class e) (helper e) (master e).

Definition set_flags (e : nf_conntrack_expect) (f : Z) :=
  mk_expect (tuple e) (mask e) (expectfn e) f (class e) (helper e) (master e).

Definition set_class (e : nf_conntrack_expect) (c : Z) :=
  mk_expect (tuple e) (mask e) (expectfn e) (flags e) c (helper e) (master e).

Definition set_helper (e : nf_conntrack_expect) (h : option Z) :=
  mk_expect (tuple e) (mask e) (expectfn e) (flags e) (class e) h (master e).

(** What [memset (&m, 0, sizeof m)] leaves in a mask. *)
Definition zero_addr : nf_inet_addr := mk_inet_addr 0 0 0 0.

Definition zero_mask : nf_conntrack_tuple_mask :=
  mk_tuple (mk_man zero_addr 0 0) (mk_dst zero_addr 0 0 0).

(* ================================================================== *)
(** ** Constants *)

Definition NF_DROP : Z := 0.
Definition NF_ACCEPT : Z := 1.
Definition NF_CT_EXPECT_CLASS_DEFAULT : Z := 0.
Definition NFPROTO_IPV4 : Z := 2.
Definition IPPROTO_UDP : Z := 17.

Definition SSDP_MCAST_ADDR : Z := 0xeffffffa.
Definition SSDP_UDP_PORT : Z := 1900.

(** The string literal ["M-SEARCH"] as the array the compiler lays out,
    terminating NUL included. *)
Definition SSDP_M_SEARCH : list byte :=
  list_byte_of_string "M-SEARCH" ++ [x00].

Definition sizeof_SSDP_M_SEARCH : Z := Z.of_nat (List.length SSDP_M_SEARCH).
Definition SSDP_M_SEARCH_SIZE : Z := sizeof_SSDP_M_SEARCH - 1.

Definition sizeof_udphdr : Z := 8.

(* ================================================================== *)
(** ** Calls to the collaborators, as events *)

Inductive debug_msg :=
  | DbgHelp (saddr : be32) (sport : Z) (daddr : be32) (dport : Z)
  | DbgNotMcast
  | DbgTooSmall
  | DbgNotMSearch
  | DbgFoundNetmask (m : be32) (addr : be32) (label : string).

Inductive warn_msg :=
  | WarnNoAddresses (devname : string)
  | WarnNotAssigned (addr : be32) (devname : string)
  | WarnAllocFailure.

Inductive event :=
  | EvDebug (m : debug_msg)
  | EvWarn (m : warn_msg)
  | EvInDevHold (d : in_device)
  | EvIfaRead (a : in_ifaddr)
  | EvInDevPut (d : in_device)
  | EvExpectAlloc (r : option nf_conntrack_expect)
  | EvExpectRelated (e : nf_conntrack_expect) (fl : Z)
  | EvExpectPut (e : nf_conntrack_expect).

(** A computation yields a value, or [None] when it read outside a buffer,
    together with the events it produced up to that point. *)
Definition M (A : Type) : Type := (option A * list event)%type.

Definition ret {A} (a : A) : M A := (Some a, []).

Definition bind {A B} (m : M A) (f : A -> M B) : M B :=
  match m with
  | (Some a, t1) => let (b, t2) := f a in (b, t1 ++ t2)
  | (None, t1) => (None, t1)
  end.

Definition emit (e : event) : M unit := (Some tt, [e]).

Definition out_of_bounds {A} : M A := (None, []).

Declare Scope ssdp_scope.
Delimit Scope ssdp_scope with ssdp.
Notation "x <- c1 ;; c2" := (bind c1 (fun x => c2))
  (at level 61, c1 at next level, right associativity) : ssdp_scope.
Notation "c1 ;; c2" := (bind c1 (fun _ => c2))
  (at level 61, right associativity) : ssdp_scope.
Local Open Scope ssdp_scope.

Definition pr_debug (m : debug_msg) : M unit := emit (EvDebug m).
Definition pr_warn (m : warn_msg) : M unit := emit (EvWarn m).

(** [in_dev_get]: takes a reference on the device's address configuration
    when there is one. *)
Definition in_dev_get (d : net_device) : M (option in_device) :=
  match ip_ptr d with
  | None => ret None
  | Some idev => emit (EvInDevHold idev) ;; ret (Some idev)
  end.

Definition in_dev_put (idev : in_device) : M unit := emit (EvInDevPut idev).

Definition nf_ct_expect_related (e : nf_conntrack_expect) (fl : Z) : M unit :=
  emit (EvExpectRelated e fl).

Definition nf_ct_expect_put (e : nf_conntrack_expect) : M unit :=
  emit (EvExpectPut e).

(** Reading byte [i] of a buffer. *)
Definition load (buf : list byte) (i : nat) : M byte :=
  match nth_error buf i with
  | Some b => ret b
  | None => out_of_bounds
  end.

Definition byte_val (b : byte) : Z := Z.of_N (Byte.to_N b).

(** [memcmp]: compares [count] bytes, first difference decides. *)
Fixpoint memcmp_from (cs ct : list byte) (i : nat) (count : nat) : M Z :=
  match count with
  | O => ret 0
  | S count' =>
      a <- load cs i ;;
      b <- load ct i ;;
      let res := byte_val a - byte_val b in
      if negb (res =? 0) then ret res
      else memcmp_from cs ct (S i) count'
  end.

Definition memcmp (cs ct : list byte) (count : Z) : M Z :=
  memcmp_from cs ct 0 (Z.to_nat count).

(** Modelled from the spec: [skb_header_pointer], a function of the kernel
    that the source file only calls.  It hands out [len] bytes of the packet
    starting at [offset] when the packet holds them all, and [NULL]
    otherwise (spec 4.2: a payload shorter than the pattern makes the match
    fail, and nothing past the declared length is read). *)
Definition skb_header_pointer (skb : sk_buff) (offset len : Z) : option (list byte) :=
  if (0 <=? offset) && (0 <=? len)
     && (offset + len <=? Z.of_nat (List.length (data skb)))
  then Some (firstn (Z.to_nat len) (skipn (Z.to_nat offset) (data skb)))
  else None.

(** [struct nf_conntrack_helper]: [expect_policy] points at a table with
    one policy per expectation class. *)
Record nf_conntrack_helper := mk_helper {
  helper_name : string;
  helper_tuple : nf_conntrack_tuple;
  help : sk_buff -> Z -> nf_conn -> ip_conntrack_info -> M Z;
  expect_policy : list nf_conntrack_expect_policy
}.

(* ================================================================== *)
(** ** The helper *)

Section Helper.

(** Byte order of the machine: [cpu_to_be32] and friends swap on a
    little-endian one. *)
Variable little_endian : bool.

(** The outcome of [nf_ct_expect_alloc] for a flow: a fresh expectation
    with whatever the allocator left in it, or [None] when out of memory. *)
Variable expect_cache : nf_conn -> option nf_conntrack_expect.

Definition cpu_to_be32 (x : Z) : be32 := if little_endian then bswap32 x else x.
Definition cpu_to_be16 (x : Z) : be16 := if little_endian then bswap16 x else x.
Definition be16_to_cpu (x : be16) : Z := if little_endian then bswap16 x else x.

Definition nf_ct_expect_alloc (ct : nf_conn) : M (option nf_conntrack_expect) :=
  emit (EvExpectAlloc (expect_cache ct)) ;; ret (expect_cache ct).

(** The [for] loop of [ssdp_src_netmask]: walks [ifa_next] from [addr],
    leaves at the first entry whose local address is the source. *)
Fixpoint ssdp_src_netmask_loop (addr : list in_ifaddr)
         (orig : nf_conntrack_tuple) (ret0 : be32) : M be32 :=
  match addr with
  | [] => ret ret0
  | a :: ifa_next =>
      emit (EvIfaRead a) ;;
      if ifa_local a =? ip (u3 (src orig)) then
        pr_debug (DbgFoundNetmask (ifa_mask a) (ip (u3 (src orig))) (ifa_label a)) ;;
        ret (ifa_mask a)
      else ssdp_src_netmask_loop ifa_next orig ret0
  end.

Definition ssdp_src_netmask (skb : sk_buff) (orig : nf_conntrack_tuple) : M be32 :=
  let ret0 := 0 in
  d <- in_dev_get (dev skb) ;;
  match d with
  | None =>
      pr_warn (WarnNoAddresses (name (dev skb))) ;;
      ret ret0
  | Some idev =>
      r <- ssdp_src_netmask_loop (ifa_list idev) orig ret0 ;;
      (if r =? 0
       then pr_warn (WarnNotAssigned (ip (u3 (src orig))) (name (dev skb)))
       else ret tt) ;;
      in_dev_put idev ;;
      ret r
  end.

Definition ssdp_help (skb : sk_buff) (protoff : Z) (ct : nf_conn)
           (ctinfo : ip_conntrack_info) : M Z :=
  let tpl := tuplehash ct IP_CT_DIR_ORIGINAL in
  pr_debug (DbgHelp (ip (u3 (src tpl))) (be16_to_cpu (udp_port (src tpl)))
                    (ip (dst_u3 (dst tpl))) (be16_to_cpu (dst_udp_port (dst tpl)))) ;;
  if negb (ip (dst_u3 (dst tpl)) =? cpu_to_be32 SSDP_MCAST_ADDR) then
    pr_debug DbgNotMcast ;;
    ret NF_ACCEPT
  else
    match skb_header_pointer skb (to_int (u32 (protoff + sizeof_udphdr)))
                             SSDP_M_SEARCH_SIZE with
    | None =>
        pr_debug DbgTooSmall ;;
        ret NF_ACCEPT
    | Some udpdata =>
        c <- memcmp udpdata SSDP_M_SEARCH SSDP_M_SEARCH_SIZE ;;
        if negb (c =? 0) then
          pr_debug DbgNotMSearch ;;
          ret NF_ACCEPT
        else
          netmask <- ssdp_src_netmask skb tpl ;;
          if netmask =? 0 then ret NF_DROP
          else
            a <- nf_ct_expect_alloc ct ;;
            match a with
            | None =>
                pr_warn WarnAllocFailure ;;
                ret NF_DROP
            | Some expect =>
                let expect := set_tuple expect (tuplehash ct IP_CT_DIR_REPLY) in
                let expect :=
                  set_tuple expect
                    (set_src_u3_ip (tuple expect) (ip (dst_u3 (dst (tuple expect))))) in
                let expect := set_mask expect zero_mask in
                let expect := set_mask expect (set_src_u3_ip (mask expect) netmask) in
                let expect := set_mask expect (set_src_udp_port (mask expect) 0xffff) in
                let expect := set_expectfn expect None in
                let expect := set_flags expect 0 in
                let expect := set_class expect NF_CT_EXPECT_CLASS_DEFAULT in
                let expect := set_helper expect None in
                nf_ct_expect_related expect 0 ;;
                nf_ct_expect_put expect ;;
                ret NF_ACCEPT
            end
    end.

Definition ssdp_policy : nf_conntrack_expect_policy :=
  mk_policy 1 1 "ssdp".

(** [ssdp_helper]: members the initialiser does not name are zero;
    [expect_policy] points at the one-entry table [ssdp_policy]. *)
Definition ssdp_helper : nf_conntrack_helper :=
  mk_helper "ssdp"
            (mk_tuple (mk_man zero_addr (cpu_to_be16 SSDP_UDP_PORT) NFPROTO_IPV4)
                      (mk_dst zero_addr 0 IPPROTO_UDP 0))
            ssdp_help
            [ssdp_policy].

(** The [__be32] of the dotted-quad address [a.b.c.d]: the bytes [a], [b],
    [c], [d] in memory order, read as a 32-bit word by this machine. *)
Definition ipv4 (a b c d : Z) : be32 :=
  if little_endian
  then a + b * 2 ^ 8 + c * 2 ^ 16 + d * 2 ^ 24
  else a * 2 ^ 24 + b * 2 ^ 16 + c * 2 ^ 8 + d.

End Helper.

(* ================================================================== *)
(** ** Reading a run *)

(** The expectations handed to [nf_ct_expect_related], in order. *)
Definition registered (t : list event) : list nf_conntrack_expect :=
  flat_map (fun ev => match ev with EvExpectRelated e _ => [e] | _ => [] end) t.

(** The expectations [nf_ct_expect_alloc] returned, in order. *)
Definition allocated (t : list event) : list nf_conntrack_expect :=
  flat_map (fun ev => match ev with EvExpectAlloc (Some e) => [e] | _ => [] end) t.

(** The messages printed with [pr_warn], in order. *)
Definition warnings (t : list event) : list warn_msg :=
  flat_map (fun ev => match ev with EvWarn m => [m] | _ => [] end) t.

(** Events that reach the expectation table. *)
Definition is_expect_event (ev : event) : bool :=
  match ev with
  | EvExpectAlloc _ | EvExpectRelated _ _ | EvExpectPut _ => true
  | _ => false
  end.

(** Events that change something outside the helper: reference counts and
    the expectation table.  Log lines and reads do not. *)
Definition is_state_change (ev : event) : bool :=
  match ev with
  | EvInDevHold _ | EvInDevPut _
  | EvExpectAlloc _ | EvExpectRelated _ _ | EvExpectPut _ => true
  | EvDebug _ | EvWarn _ | EvIfaRead _ => false
  end.

(** References on the address configuration still held after a run that
    started with [n] of them. *)
Fixpoint in_dev_refs (n : Z) (t : list event) : Z :=
  match t with
  | [] => n
  | EvInDevHold _ :: t' => in_dev_refs (n + 1) t'
  | EvInDevPut _ :: t' => in_dev_refs (n - 1) t'
  | _ :: t' => in_dev_refs n t'
  end.

(** Every read of the address list happens while a reference is held:
    [n] is the number held before the first event of [t]. *)
Fixpoint reads_under_ref (n : Z) (t : list event) : Prop :=
  match t with
  | [] => True
  | EvInDevHold _ :: t' => reads_under_ref (n + 1) t'
  | EvInDevPut _ :: t' => reads_under_ref (n - 1) t'
  | EvIfaRead _ :: t' => 0 < n /\ reads_under_ref n t'
  | _ :: t' => reads_under_ref n t'
  end.

Definition count_holds (t : list event) : nat :=
  List.length (filter (fun ev => match ev with EvInDevHold _ => true | _ => false end) t).

Definition count_puts (t : list event) : nat :=
  List.length (filter (fun ev => match ev with EvInDevPut _ => true | _ => false end) t).

(** Modelled from the spec: how the engine finds the policy that governs an
    expectation (the engine is not in the source file): the entry of the
    registering helper's policy table selected by the expectation's class
    (spec 6: the helper is registered "with an associated expectation
    policy"). *)
Definition policy_of (h : nf_conntrack_helper) (e : nf_conntrack_expect)
  : option nf_conntrack_expect_policy :=
  if class e <? 0 then None else nth_error (expect_policy h) (Z.to_nat (class e)).

(** The UDP payload of a packet whose UDP header starts at [protoff]. *)
Definition udp_payload (skb : sk_buff) (protoff : Z) : list byte :=
  skipn (Z.to_nat (protoff + sizeof_udphdr)) (data skb).

(** The eight bytes of the request method. *)
Definition m_search : list byte := list_byte_of_string "M-SEARCH".

(** The first entry of an address list whose local address is [s]. *)
Definition first_local (s : be32) (l : list in_ifaddr) : option in_ifaddr :=
  find (fun a => ifa_local a =? s) l.

(** The source address of the query and the receiving device's list. *)
Definition query_src (ct : nf_conn) : be32 :=
  ip (u3 (src (tuplehash ct IP_CT_DIR_ORIGINAL))).

Definition query_dst (ct : nf_conn) : be32 :=
  ip (dst_u3 (dst (tuplehash ct IP_CT_DIR_ORIGINAL))).

(** The mask the resolver reports for source [s] on list [l]: that of the
    first entry with local address [s], and 0 when there is none. *)
Definition netmask_of (s : be32) (l : list in_ifaddr) : be32 :=
  match first_local s l with
  | Some a => ifa_mask a
  | None => 0
  end.

(** The expectation [ssdp_help] builds in the slot [e0] it was given. *)
Definition built_expect (ct : nf_conn) (netmask : be32) (e0 : nf_conntrack_expect)
  : nf_conntrack_expect :=
  mk_expect
    (set_src_u3_ip (tuple_reply ct) (ip (dst_u3 (dst (tuple_reply ct)))))
    (mk_tuple (mk_man (mk_inet_addr netmask 0 0 0) 0xffff 0)
              (mk_dst zero_addr 0 0 0))
    None 0 NF_CT_EXPECT_CLASS_DEFAULT None (master e0).

(* ================================================================== *)
(** ** Describing a run *)

(** What the walk over the address list does for source [s]: one read per
    entry up to and including the first match, then the debug line. *)
Fixpoint scan_trace (s : be32) (l : list in_ifaddr) : list event :=
  match l with
  | [] => []
  | a :: l' =>
      EvIfaRead a ::
      (if ifa_local a =? s
       then [EvDebug (DbgFoundNetmask (ifa_mask a) s (ifa_label a))]
       else scan_trace s l')
  end.

Definition resolved_mask (skb : sk_buff) (s : be32) : be32 :=
  match ip_ptr (dev skb) with
  | None => 0
  | Some idev => netmask_of s (ifa_list idev)
  end.

Definition resolver_trace (skb : sk_buff) (s : be32) : list event :=
  match ip_ptr (dev skb) with
  | None => [EvWarn (WarnNoAddresses (name (dev skb)))]
  | Some idev =>
      EvInDevHold idev ::
      scan_trace s (ifa_list idev) ++
      (if netmask_of s (ifa_list idev) =? 0
       then [EvWarn (WarnNotAssigned s (name (dev skb)))]
       else []) ++
      [EvInDevPut idev]
  end.

(** The first debug line of [ssdp_help]. *)
Definition help_banner (le : bool) (ct : nf_conn) : event :=
  let tpl := tuplehash ct IP_CT_DIR_ORIGINAL in
  EvDebug (DbgHelp (ip (u3 (src tpl))) (be16_to_cpu le (udp_port (src tpl)))
                   (ip (dst_u3 (dst tpl))) (be16_to_cpu le (dst_udp_port (dst tpl)))).

(** What follows a successful subnet resolution. *)
Definition build_outcome (cache : nf_conn -> option nf_conntrack_expect)
           (ct : nf_conn) (netmask : be32) : Z * list event :=
  if netmask =? 0 then (NF_DROP, [])
  else match cache ct with
       | None => (NF_DROP, [EvExpectAlloc None; EvWarn WarnAllocFailure])
       | Some e0 =>
           (NF_ACCEPT,
            [EvExpectAlloc (Some e0);
             EvExpectRelated (built_expect ct netmask e0) 0;
             EvExpectPut (built_expect ct netmask e0)])
       end.

(** The two tests a packet passes before the resolver is asked. *)
Definition matched (le : bool) (skb : sk_buff) (protoff : Z) (ct : nf_conn) : Prop :=
  query_dst ct = cpu_to_be32 le SSDP_MCAST_ADDR
  /\ skb_header_pointer skb (to_int (u32 (protoff + sizeof_udphdr))) SSDP_M_SEARCH_SIZE
     = Some m_search.

(** A well-formed query: sent to 239.255.255.250, payload beginning with
    "M-SEARCH"; [protoff] is an offset inside a packet. *)
Definition well_formed_query (le : bool) (skb : sk_buff) (protoff : Z) (ct : nf_conn)
  : Prop :=
  0 <= protoff < 2 ^ 31 - 8
  /\ query_dst ct = ipv4 le 239 255 255 250
  /\ firstn 8 (udp_payload skb protoff) = m_search.

(** The addresses configured on a device. *)
Definition device_addrs (d : net_device) : list in_ifaddr :=
  match ip_ptr d with
  | None => []
  | Some idev => ifa_list idev
  end.

(** The entries of the address list that a run read, in order. *)
Definition reads (t : list event) : list in_ifaddr :=
  flat_map (fun ev => match ev with EvIfaRead a => [a] | _ => [] end) t.

(** Events that leave the reference count alone. *)
Definition keeps_ref (ev : event) : bool :=
  match ev with
  | EvInDevHold _ | EvInDevPut _ => false
  | _ => true
  end.

(** The run [r] authorises replies from the subnet with mask [m]: ACCEPT,
    one expectation handed to the table, its source-address mask [m], its
    source-port mask all ones, and the helper's policy for it capping the
    count at one with timeout one. *)
Definition authorises_subnet (le : bool) (cache : nf_conn -> option nf_conntrack_expect)
           (r : M Z) (m : be32) : Prop :=
  fst r = Some NF_ACCEPT
  /\ exists e, registered (snd r) = [e]
               /\ ip (u3 (src (mask e))) = m
               /\ udp_port (src (mask e)) = 0xffff
               /\ exists p, policy_of (ssdp_helper le cache) e = Some p
                            /\ max_expected p = 1 /\ timeout p = 1.

(* ================================================================== *)
(** ** A concrete link: 192.168.1.50/24 querying 239.255.255.250:1900 *)

Definition ex_addr (x : be32) : nf_inet_addr := mk_inet_addr x 0 0 0.

Definition ex_src : be32 := ipv4 true 192 168 1 50.

Definition ex_mcast : be32 := ipv4 true 239 255 255 250.

Definition ex_orig : nf_conntrack_tuple :=
  mk_tuple (mk_man (ex_addr ex_src) (cpu_to_be16 true 50000) NFPROTO_IPV4)
           (mk_dst (ex_addr ex_mcast) (cpu_to_be16 true SSDP_UDP_PORT) IPPROTO_UDP 0).

Definition ex_reply : nf_conntrack_tuple :=
  mk_tuple (mk_man (ex_addr ex_mcast) (cpu_to_be16 true SSDP_UDP_PORT) NFPROTO_IPV4)
           (mk_dst (ex_addr ex_src) (cpu_to_be16 true 50000) IPPROTO_UDP 1).

Definition ex_ct : nf_conn := mk_conn ex_orig ex_reply.

(** A flow to a unicast address on the same port. *)
Definition ex_ct_unicast : nf_conn :=
  mk_conn
    (mk_tuple (src ex_orig)
              (mk_dst (ex_addr (ipv4 true 192 168 1 1))
                      (cpu_to_be16 true SSDP_UDP_PORT) IPPROTO_UDP 0))
    ex_reply.

(** Twenty bytes of IP header, eight of UDP header, then the payload. *)
Definition ex_protoff : Z := 20.

Definition ex_packet (payload : string) : list byte :=
  repeat x00 28 ++ list_byte_of_string payload.

Definition ex_eth0 : net_device :=
  mk_net_device "eth0"
    (Some (mk_in_device [mk_ifaddr ex_src (ipv4 true 255 255 255 0) "eth0"])).

(** The same device with only 10.0.0.1/24. *)
Definition ex_eth0_other : net_device :=
  mk_net_device "eth0"
    (Some (mk_in_device [mk_ifaddr (ipv4 true 10 0 0 1) (ipv4 true 255 255 255 0) "eth0"])).

(** The same device without IPv4 configuration. *)
Definition ex_eth0_bare : net_device := mk_net_device "eth0" None.

(** The same device with an address configuration that lists no address. *)
Definition ex_eth0_empty : net_device :=
  mk_net_device "eth0" (Some (mk_in_device [])).

(** The address 192.168.1.50 configured twice: first as /16, then as /24. *)
Definition ex_eth0_twice : net_device :=
  mk_net_device "eth0"
    (Some (mk_in_device [mk_ifaddr ex_src (ipv4 true 255 255 0 0) "eth0";
                         mk_ifaddr ex_src (ipv4 true 255 255 255 0) "eth0"])).

(** The address 192.168.1.50 configured with the netmask 0.0.0.0. *)
Definition ex_eth0_zero : net_device :=
  mk_net_device "eth0"
    (Some (mk_in_device [mk_ifaddr ex_src 0 "eth0"])).

(** A slot as the allocator may leave it: nothing in it is meaningful yet. *)
Definition ex_slot : nf_conntrack_expect :=
  mk_expect ex_orig ex_orig (Some 5) 7 9 (Some 3) ex_ct.

Definition ex_cache (ct : nf_conn) : option nf_conntrack_expect := Some ex_slot.

Definition ex_cache_empty (ct : nf_conn) : option nf_conntrack_expect := None.

(* ================================================================== *)
(** ** Module load and unload *)

(** Calls to the engine's helper registry. *)
Inductive registry_call :=
  | CallRegister (h : nf_conntrack_helper)
  | CallUnregister (h : nf_conntrack_helper).

(** [nf_conntrack_ssdp_init]: hands [ssdp_helper] to
    [nf_conntrack_helper_register] and returns what it answers; [status] is
    that answer. *)
Definition nf_conntrack_ssdp_init (le : bool)
           (cache : nf_conn -> option nf_conntrack_expect)
           (status : nf_conntrack_helper -> Z) : Z * list registry_call :=
  (status (ssdp_helper le cache), [CallRegister (ssdp_helper le cache)]).

(** [nf_conntrack_ssdp_exit]: hands [ssdp_helper] to
    [nf_conntrack_helper_unregister]. *)
Definition nf_conntrack_ssdp_exit (le : bool)
           (cache : nf_conn -> option nf_conntrack_expect) : list registry_call :=
  [CallUnregister (ssdp_helper le cache)].

(* ================================================================== *)
(** ** Further readings of a run *)

(** Every call to the expectation table is made while no reference on the
    address configuration is held: [n] is the number held before the first
    event of [t]. *)
Fixpoint table_calls_unlocked (n : Z) (t : list event) : Prop :=
  match t with
  | [] => True
  | EvInDevHold _ :: t' => table_calls_unlocked (n + 1) t'
  | EvInDevPut _ :: t' => table_calls_unlocked (n - 1) t'
  | EvExpectAlloc _ :: t' => n = 0 /\ table_calls_unlocked n t'
  | EvExpectRelated _ _ :: t' => n = 0 /\ table_calls_unlocked n t'
  | EvExpectPut _ :: t' => n = 0 /\ table_calls_unlocked n t'
  | _ :: t' => table_calls_unlocked n t'
  end.

(** Events that are not calls to the expectation table. *)
Definition off_table (ev : event) : bool := negb (is_expect_event ev).

(** The same flow seen with other ports, protocol numbers and address
    families in its original tuple: only the two IPv4 address words the
    handler reads are kept. *)
Definition same_addresses (ct ct' : nf_conn) : Prop :=
  query_src ct = query_src ct'
  /\ query_dst ct = query_dst ct'
  /\ tuple_reply ct = tuple_reply ct'.

(** The flow of the concrete link sent to port 9999 over another protocol. *)
Definition ex_ct_other_port : nf_conn :=
  mk_conn
    (mk_tuple (mk_man (ex_addr ex_src) (cpu_to_be16 true 40000) NFPROTO_IPV4)
              (mk_dst (ex_addr ex_mcast) (cpu_to_be16 true 9999) 6 0))
    ex_reply.

(** A second slot with other leftovers and the same master. *)
Definition ex_slot' : nf_conntrack_expect :=
  mk_expect ex_reply ex_reply None 255 3 (Some 77) ex_ct.

Definition ex_cache' (ct : nf_conn) : option nf_conntrack_expect := Some ex_slot'.

(* ================================================================== *)
(** ** Byte order *)

Lemma cpu_to_be32_mcast (le : bool) :
  cpu_to_be32 le SSDP_MCAST_ADDR = ipv4 le 239 255 255 250.
Proof. destruct le; reflexivity. Qed.

Lemma cpu_to_be16_all_ones (le : bool) : cpu_to_be16 le 0xffff = 0xffff.
Proof. destruct le; reflexivity. Qed.

Lemma to_int_u32_small (x : Z) : 0 <= x < 2 ^ 31 -> to_int (u32 x) = x.
Proof.
  intros Hx. unfold to_int, u32.
  rewrite Z.mod_small by lia.
  destruct (x <? 2 ^ 31) eqn:E; [reflexivity | apply Z.ltb_ge in E; lia].
Qed.

(* ================================================================== *)
(** ** The event monad *)

Lemma bind_ret {A B} (a : A) (f : A -> M B) : bind (ret a) f = f a.
Proof. unfold bind, ret. destruct (f a) as [b t]. reflexivity. Qed.

Lemma bind_emit {B} (ev : event) (k : unit -> M B) :
  bind (emit ev) k = (fst (k tt), ev :: snd (k tt)).
Proof. unfold bind, emit. destruct (k tt) as [b t]. reflexivity. Qed.

Lemma bind_run {A B} (m : M A) (f : A -> M B) (a : A) (t : list event) :
  m = (Some a, t) -> bind m f = (fst (f a), t ++ snd (f a)).
Proof. intros ->. unfold bind. destruct (f a) as [b t2]. reflexivity. Qed.

Lemma registered_app (t1 t2 : list event) :
  registered (t1 ++ t2) = registered t1 ++ registered t2.
Proof. apply flat_map_app. Qed.

Lemma allocated_app (t1 t2 : list event) :
  allocated (t1 ++ t2) = allocated t1 ++ allocated t2.
Proof. apply flat_map_app. Qed.

Lemma warnings_app (t1 t2 : list event) :
  warnings (t1 ++ t2) = warnings t1 ++ warnings t2.
Proof. apply flat_map_app. Qed.

(* ================================================================== *)
(** ** memcmp and the packet buffer *)

Lemma byte_val_diff (a b : byte) : byte_val a - byte_val b = 0 <-> a = b.
Proof.
  unfold byte_val. split.
  - intros H.
    assert (E : Byte.to_N a = Byte.to_N b) by lia.
    pose proof (Byte.of_to_N a) as Ha. rewrite E, Byte.of_to_N in Ha.
    congruence.
  - intros ->. lia.
Qed.

Lemma skipn_nth_error {A} (l : list A) :
  forall (i : nat) (a : A),
    nth_error l i = Some a -> skipn i l = a :: skipn (S i) l.
Proof.
  induction l as [|x l IH]; intros [|i] a H; simpl in H; try discriminate.
  - injection H as ->. reflexivity.
  - apply IH in H. exact H.
Qed.

(** Within both buffers [memcmp] reads without fault, and answers 0 exactly
    when the compared ranges are equal. *)
Lemma memcmp_from_spec (count : nat) :
  forall (cs ct : list byte) (i : nat),
    (i + count <= List.length cs)%nat ->
    (i + count <= List.length ct)%nat ->
    exists r, memcmp_from cs ct i count = (Some r, [])
              /\ (r = 0 <-> firstn count (skipn i cs) = firstn count (skipn i ct)).
Proof.
  induction count as [|n IH]; intros cs ct i Hcs Hct.
  - exists 0. simpl. split; [reflexivity | tauto].
  - destruct (nth_error cs i) as [a|] eqn:Ea;
      [| apply nth_error_None in Ea; lia].
    destruct (nth_error ct i) as [b|] eqn:Eb;
      [| apply nth_error_None in Eb; lia].
    assert (Sa := skipn_nth_error _ _ _ Ea).
    assert (Sb := skipn_nth_error _ _ _ Eb).
    cbn [memcmp_from]. unfold load. rewrite Ea, Eb, !bind_ret.
    rewrite Sa, Sb. cbn [firstn].
    destruct (byte_val a - byte_val b =? 0) eqn:E; cbn [negb].
    + apply Z.eqb_eq, byte_val_diff in E. subst b.
      destruct (IH cs ct (S i)) as (r & Hr & Hiff); [lia | lia |].
      exists r. split; [exact Hr |].
      rewrite Hiff. split; [intros ->; reflexivity | intros H; injection H; tauto].
    + apply Z.eqb_neq in E.
      exists (byte_val a - byte_val b). split; [reflexivity |].
      split; [intros H; contradiction |].
      intros H. injection H as H _. apply byte_val_diff in H. contradiction.
Qed.

Lemma memcmp_spec (cs ct : list byte) (count : Z) :
  0 <= count ->
  (count <= Z.of_nat (List.length cs)) ->
  (count <= Z.of_nat (List.length ct)) ->
  exists r, memcmp cs ct count = (Some r, [])
            /\ (r = 0 <-> firstn (Z.to_nat count) cs = firstn (Z.to_nat count) ct).
Proof.
  intros H0 Hcs Hct. unfold memcmp.
  apply (memcmp_from_spec (Z.to_nat count) cs ct 0%nat); lia.
Qed.

Lemma SSDP_M_SEARCH_SIZE_eq : SSDP_M_SEARCH_SIZE = 8.
Proof. reflexivity. Qed.

Lemma sizeof_SSDP_M_SEARCH_eq : Z.of_nat (List.length SSDP_M_SEARCH) = 9.
Proof. reflexivity. Qed.

Lemma length_m_search : Z.of_nat (List.length m_search) = 8.
Proof. reflexivity. Qed.

Lemma firstn_SSDP_M_SEARCH : firstn 8 SSDP_M_SEARCH = m_search.
Proof. reflexivity. Qed.

(** What [skb_header_pointer] hands out is always exactly [len] bytes. *)
Lemma skb_header_pointer_length (skb : sk_buff) (offset len : Z) (buf : list byte) :
  skb_header_pointer skb offset len = Some buf ->
  Z.of_nat (List.length buf) = len.
Proof.
  unfold skb_header_pointer.
  destruct ((0 <=? offset) && (0 <=? len)
            && (offset + len <=? Z.of_nat (List.length (data skb)))) eqn:E;
    [| discriminate].
  intros H. injection H as <-.
  apply andb_prop in E as [E E3]. apply andb_prop in E as [E1 E2].
  apply Z.leb_le in E1, E2, E3.
  rewrite length_firstn, length_skipn. lia.
Qed.

(** In terms of the UDP payload: eight bytes are handed out when the payload
    has them, and they are the payload's first eight. *)
Lemma skb_header_pointer_payload (skb : sk_buff) (protoff : Z) :
  0 <= protoff < 2 ^ 31 - 8 ->
  skb_header_pointer skb (to_int (u32 (protoff + sizeof_udphdr))) SSDP_M_SEARCH_SIZE
  = if (8 <=? List.length (udp_payload skb protoff))%nat
    then Some (firstn 8 (udp_payload skb protoff))
    else None.
Proof.
  intros Hp. unfold sizeof_udphdr. rewrite to_int_u32_small by lia.
  rewrite SSDP_M_SEARCH_SIZE_eq.
  unfold skb_header_pointer, udp_payload, sizeof_udphdr.
  rewrite length_skipn.
  replace (0 <=? protoff + 8) with true by (symmetry; apply Z.leb_le; lia).
  cbn [andb Z.leb Z.compare].
  destruct (protoff + 8 + 8 <=? Z.of_nat (List.length (data skb))) eqn:E.
  - apply Z.leb_le in E.
    replace (8 <=? List.length (data skb) - Z.to_nat (protoff + 8))%nat with true
      by (symmetry; apply Nat.leb_le; lia).
    reflexivity.
  - apply Z.leb_gt in E.
    replace (8 <=? List.length (data skb) - Z.to_nat (protoff + 8))%nat with false
      by (symmetry; apply Nat.leb_gt; lia).
    reflexivity.
Qed.

(* ================================================================== *)
(** ** The subnet resolver, step by step *)

Lemma ssdp_src_netmask_loop_run (orig : nf_conntrack_tuple) (l : list in_ifaddr) :
  ssdp_src_netmask_loop l orig 0
  = (Some (netmask_of (ip (u3 (src orig))) l), scan_trace (ip (u3 (src orig))) l).
Proof.
  induction l as [|a l IH].
  - reflexivity.
  - cbn [ssdp_src_netmask_loop scan_trace].
    unfold netmask_of, first_local. cbn [find].
    rewrite bind_emit.
    destruct (ifa_local a =? ip (u3 (src orig))) eqn:E.
    + reflexivity.
    + rewrite IH. reflexivity.
Qed.

(** The resolver always returns, and what it returns and does is fixed by the
    device's configuration and the source address. *)
Lemma ssdp_src_netmask_run (skb : sk_buff) (orig : nf_conntrack_tuple) :
  ssdp_src_netmask skb orig
  = (Some (resolved_mask skb (ip (u3 (src orig)))),
     resolver_trace skb (ip (u3 (src orig)))).
Proof.
  unfold ssdp_src_netmask, resolved_mask, resolver_trace, in_dev_get.
  cbv zeta.
  destruct (ip_ptr (dev skb)) as [idev|].
  - rewrite (bind_run (emit (EvInDevHold idev) ;; ret (Some idev)) _
                      (Some idev) [EvInDevHold idev] eq_refl).
    rewrite ssdp_src_netmask_loop_run.
    unfold pr_warn, in_dev_put. cbn [bind emit ret app fst snd].
    destruct (netmask_of (ip (u3 (src orig))) (ifa_list idev) =? 0);
      cbn [bind emit ret app]; rewrite ?app_nil_r; reflexivity.
  - reflexivity.
Qed.

Lemma first_local_app (s : be32) (pre post : list in_ifaddr) (a : in_ifaddr) :
  Forall (fun b => ifa_local b <> s) pre ->
  ifa_local a = s ->
  first_local s (pre ++ a :: post) = Some a.
Proof.
  intros Hpre Ha. unfold first_local.
  induction Hpre as [|b pre Hb _ IH]; cbn [app find].
  - rewrite Ha, Z.eqb_refl. reflexivity.
  - apply Z.eqb_neq in Hb. rewrite Hb. exact IH.
Qed.

Lemma first_local_none (s : be32) (l : list in_ifaddr) :
  Forall (fun b => ifa_local b <> s) l <-> first_local s l = None.
Proof.
  unfold first_local. induction l as [|b l IH]; cbn [find].
  - split; [reflexivity | constructor].
  - destruct (ifa_local b =? s) eqn:E.
    + apply Z.eqb_eq in E. split; [| discriminate].
      intros H. inversion H; subst. contradiction.
    + apply Z.eqb_neq in E. rewrite <- IH. split.
      * intros H. inversion H; assumption.
      * intros H. constructor; assumption.
Qed.

Lemma scan_trace_no_warning (s : be32) (l : list in_ifaddr) :
  warnings (scan_trace s l) = [] /\ registered (scan_trace s l) = []
  /\ allocated (scan_trace s l) = []
  /\ filter is_state_change (scan_trace s l) = [].
Proof.
  induction l as [|a l IH]; cbn [scan_trace]; [repeat split |].
  destruct (ifa_local a =? s); [repeat split | exact IH].
Qed.

(* ================================================================== *)
(** ** The packet handler, path by path *)

Section Paths.

Variable le : bool.
Variable cache : nf_conn -> option nf_conntrack_expect.
Variables (skb : sk_buff) (protoff : Z) (ct : nf_conn) (ctinfo : ip_conntrack_info).

Lemma ssdp_help_not_mcast :
  query_dst ct <> cpu_to_be32 le SSDP_MCAST_ADDR ->
  ssdp_help le cache skb protoff ct ctinfo
  = (Some NF_ACCEPT, [help_banner le ct; EvDebug DbgNotMcast]).
Proof.
  intros H. apply Z.eqb_neq in H. unfold query_dst in H.
  unfold ssdp_help, pr_debug. rewrite bind_emit, H. reflexivity.
Qed.

Lemma ssdp_help_too_small :
  query_dst ct = cpu_to_be32 le SSDP_MCAST_ADDR ->
  skb_header_pointer skb (to_int (u32 (protoff + sizeof_udphdr))) SSDP_M_SEARCH_SIZE
  = None ->
  ssdp_help le cache skb protoff ct ctinfo
  = (Some NF_ACCEPT, [help_banner le ct; EvDebug DbgTooSmall]).
Proof.
  intros H Hp. apply Z.eqb_eq in H. unfold query_dst in H.
  unfold ssdp_help, pr_debug. rewrite bind_emit, H, Hp. reflexivity.
Qed.

Lemma ssdp_help_not_m_search (udpdata : list byte) :
  query_dst ct = cpu_to_be32 le SSDP_MCAST_ADDR ->
  skb_header_pointer skb (to_int (u32 (protoff + sizeof_udphdr))) SSDP_M_SEARCH_SIZE
  = Some udpdata ->
  udpdata <> m_search ->
  ssdp_help le cache skb protoff ct ctinfo
  = (Some NF_ACCEPT, [help_banner le ct; EvDebug DbgNotMSearch]).
Proof.
  intros H Hp Hne. apply Z.eqb_eq in H. unfold query_dst in H.
  pose proof (skb_header_pointer_length _ _ _ _ Hp) as Hlen.
  rewrite SSDP_M_SEARCH_SIZE_eq in Hlen.
  destruct (memcmp_spec udpdata SSDP_M_SEARCH SSDP_M_SEARCH_SIZE)
    as (r & Hr & Hiff);
    [rewrite ?SSDP_M_SEARCH_SIZE_eq, ?sizeof_SSDP_M_SEARCH_eq; lia .. |].
  rewrite SSDP_M_SEARCH_SIZE_eq in Hiff.
  change (Z.to_nat 8) with 8%nat in Hiff.
  rewrite firstn_SSDP_M_SEARCH, firstn_all2 in Hiff by lia.
  assert (Hr0 : (r =? 0) = false) by (apply Z.eqb_neq; tauto).
  unfold ssdp_help, pr_debug. rewrite bind_emit, H, Hp.
  cbn [negb]. rewrite (bind_run _ _ _ _ Hr), Hr0. reflexivity.
Qed.

Lemma ssdp_help_m_search :
  query_dst ct = cpu_to_be32 le SSDP_MCAST_ADDR ->
  skb_header_pointer skb (to_int (u32 (protoff + sizeof_udphdr))) SSDP_M_SEARCH_SIZE
  = Some m_search ->
  ssdp_help le cache skb protoff ct ctinfo
  = (Some (fst (build_outcome cache ct (resolved_mask skb (query_src ct)))),
     help_banner le ct ::
     resolver_trace skb (query_src ct) ++
     snd (build_outcome cache ct (resolved_mask skb (query_src ct)))).
Proof.
  intros H Hp. apply Z.eqb_eq in H. unfold query_dst in H.
  destruct (memcmp_spec m_search SSDP_M_SEARCH SSDP_M_SEARCH_SIZE)
    as (r & Hr & Hiff);
    [rewrite ?SSDP_M_SEARCH_SIZE_eq, ?sizeof_SSDP_M_SEARCH_eq, ?length_m_search;
     lia .. |].
  assert (Hr0 : (r =? 0) = true) by (apply Z.eqb_eq, Hiff; reflexivity).
  unfold ssdp_help, pr_debug. rewrite bind_emit, H, Hp.
  cbn [negb]. rewrite (bind_run _ _ _ _ Hr), Hr0. cbn [negb app].
  rewrite (bind_run _ _ _ _ (ssdp_src_netmask_run skb _)).
  unfold build_outcome, query_src.
  destruct (resolved_mask skb _ =? 0) eqn:Em.
  - cbn [fst snd ret]. rewrite app_nil_r. reflexivity.
  - unfold nf_ct_expect_alloc.
    rewrite (bind_run (emit (EvExpectAlloc (cache ct)) ;; ret (cache ct)) _
                      (cache ct) [EvExpectAlloc (cache ct)] eq_refl).
    destruct (cache ct) as [e0|]; reflexivity.
Qed.

End Paths.

Lemma matched_dec (le : bool) (skb : sk_buff) (protoff : Z) (ct : nf_conn) :
  {matched le skb protoff ct} + {~ matched le skb protoff ct}.
Proof.
  unfold matched.
  destruct (Z.eq_dec (query_dst ct) (cpu_to_be32 le SSDP_MCAST_ADDR)) as [Hd|Hd];
    [| right; tauto].
  destruct (skb_header_pointer skb (to_int (u32 (protoff + sizeof_udphdr)))
                               SSDP_M_SEARCH_SIZE) as [buf|];
    [| right; intros [_ H]; discriminate].
  destruct (list_eq_dec byte_eq_dec buf m_search) as [->|Hb].
  - left. split; [exact Hd | reflexivity].
  - right. intros [_ H]. congruence.
Defined.

Lemma well_formed_matched (le : bool) (skb : sk_buff) (protoff : Z) (ct : nf_conn) :
  well_formed_query le skb protoff ct -> matched le skb protoff ct.
Proof.
  intros (Hp & Hd & Hm). split.
  - rewrite cpu_to_be32_mcast. exact Hd.
  - rewrite skb_header_pointer_payload by exact Hp.
    assert (Hl : (8 <= List.length (udp_payload skb protoff))%nat).
    { pose proof (length_firstn 8 (udp_payload skb protoff)) as L.
      rewrite Hm in L. change (List.length m_search) with 8%nat in L. lia. }
    apply Nat.leb_le in Hl. rewrite Hl, Hm. reflexivity.
Qed.

(** A packet that fails either test is accepted after two debug lines. *)
Lemma ssdp_help_unmatched (le : bool) (cache : nf_conn -> option nf_conntrack_expect)
      (skb : sk_buff) (protoff : Z) (ct : nf_conn) (ctinfo : ip_conntrack_info) :
  ~ matched le skb protoff ct ->
  exists d, ssdp_help le cache skb protoff ct ctinfo
            = (Some NF_ACCEPT, [help_banner le ct; EvDebug d]).
Proof.
  intros Hn. unfold matched in Hn.
  destruct (Z.eq_dec (query_dst ct) (cpu_to_be32 le SSDP_MCAST_ADDR)) as [Hd|Hd].
  - destruct (skb_header_pointer skb (to_int (u32 (protoff + sizeof_udphdr)))
                                 SSDP_M_SEARCH_SIZE) as [buf|] eqn:Hp.
    + exists DbgNotMSearch.
      apply (ssdp_help_not_m_search le cache skb protoff ct ctinfo buf Hd Hp).
      intros ->. apply Hn. split; [exact Hd | reflexivity].
    + exists DbgTooSmall. apply ssdp_help_too_small; assumption.
  - exists DbgNotMcast. apply ssdp_help_not_mcast; assumption.
Qed.

(** The handler never reads outside a buffer: it always reaches a verdict. *)
Lemma ssdp_help_returns (le : bool) (cache : nf_conn -> option nf_conntrack_expect)
      (skb : sk_buff) (protoff : Z) (ct : nf_conn) (ctinfo : ip_conntrack_info) :
  exists v, fst (ssdp_help le cache skb protoff ct ctinfo) = Some v
            /\ (v = NF_ACCEPT \/ v = NF_DROP).
Proof.
  destruct (matched_dec le skb protoff ct) as [[Hd Hp]|Hn].
  - rewrite (ssdp_help_m_search le cache skb protoff ct ctinfo Hd Hp).
    cbn [fst]. eexists. split; [reflexivity |].
    unfold build_outcome.
    destruct (resolved_mask skb (query_src ct) =? 0); [right; reflexivity |].
    destruct (cache ct); [left | right]; reflexivity.
  - destruct (ssdp_help_unmatched le cache skb protoff ct ctinfo Hn) as (d & ->).
    exists NF_ACCEPT. split; [reflexivity | left; reflexivity].
Qed.

Lemma resolver_trace_quiet (skb : sk_buff) (s : be32) :
  registered (resolver_trace skb s) = []
  /\ allocated (resolver_trace skb s) = []
  /\ filter is_expect_event (resolver_trace skb s) = [].
Proof.
  unfold resolver_trace.
  destruct (ip_ptr (dev skb)) as [idev|]; [| repeat split].
  assert (Q : forall l, registered (scan_trace s l) = []
                        /\ allocated (scan_trace s l) = []
                        /\ filter is_expect_event (scan_trace s l) = []).
  { induction l as [|a l IH]; cbn [scan_trace]; [repeat split |].
    destruct (ifa_local a =? s); [repeat split | exact IH]. }
  destruct (Q (ifa_list idev)) as (Q1 & Q2 & Q3).
  cbn [registered allocated flat_map filter is_expect_event app].
  fold (registered (scan_trace s (ifa_list idev) ++
        (if netmask_of s (ifa_list idev) =? 0
         then [EvWarn (WarnNotAssigned s (name (dev skb)))] else []) ++
        [EvInDevPut idev])).
  fold (allocated (scan_trace s (ifa_list idev) ++
        (if netmask_of s (ifa_list idev) =? 0
         then [EvWarn (WarnNotAssigned s (name (dev skb)))] else []) ++
        [EvInDevPut idev])).
  rewrite registered_app, allocated_app, filter_app, Q1, Q2, Q3.
  destruct (netmask_of s (ifa_list idev) =? 0); repeat split.
Qed.

(** Whatever the input, an expectation reaches the table only on the last
    path, and then it is the one built from the reply tuple and the mask. *)
Lemma ssdp_help_registered_inv (le : bool) (cache : nf_conn -> option nf_conntrack_expect)
      (skb : sk_buff) (protoff : Z) (ct : nf_conn) (ctinfo : ip_conntrack_info)
      (e : nf_conntrack_expect) :
  In e (registered (snd (ssdp_help le cache skb protoff ct ctinfo))) ->
  matched le skb protoff ct
  /\ resolved_mask skb (query_src ct) <> 0
  /\ exists e0, cache ct = Some e0
                /\ e = built_expect ct (resolved_mask skb (query_src ct)) e0
                /\ registered (snd (ssdp_help le cache skb protoff ct ctinfo)) = [e]
                /\ fst (ssdp_help le cache skb protoff ct ctinfo) = Some NF_ACCEPT.
Proof.
  destruct (matched_dec le skb protoff ct) as [[Hd Hp]|Hn].
  - rewrite (ssdp_help_m_search le cache skb protoff ct ctinfo Hd Hp).
    cbn [fst snd]. unfold help_banner.
    cbn [registered flat_map app].
    fold (registered (resolver_trace skb (query_src ct) ++
                      snd (build_outcome cache ct (resolved_mask skb (query_src ct))))).
    rewrite registered_app.
    destruct (resolver_trace_quiet skb (query_src ct)) as (-> & _ & _).
    cbn [app]. unfold build_outcome.
    destruct (resolved_mask skb (query_src ct) =? 0) eqn:Em;
      [intros []|].
    apply Z.eqb_neq in Em.
    destruct (cache ct) as [e0|]; [| intros []].
    cbn [snd fst registered flat_map app]. intros [<-|[]].
    split; [split; assumption |]. split; [exact Em |].
    exists e0. repeat split.
  - destruct (ssdp_help_unmatched le cache skb protoff ct ctinfo Hn) as (d & ->).
    intros [].
Qed.

(* ================================================================== *)
(** ** Packets the helper leaves alone *)

(** C3. A packet whose original-direction destination address is not
    239.255.255.250 is accepted; the run consists of the two debug lines
    only, so no expectation is allocated or registered and nothing outside
    the helper changes. *)
Theorem C3_non_multicast_accepted_untouched :
  forall (le : bool) (cache : nf_conn -> option nf_conntrack_expect)
         (skb : sk_buff) (protoff : Z) (ct : nf_conn) (ctinfo : ip_conntrack_info),
    query_dst ct <> ipv4 le 239 255 255 250 ->
    ssdp_help le cache skb protoff ct ctinfo
    = (Some NF_ACCEPT, [help_banner le ct; EvDebug DbgNotMcast])
    /\ allocated (snd (ssdp_help le cache skb protoff ct ctinfo)) = []
    /\ registered (snd (ssdp_help le cache skb protoff ct ctinfo)) = []
    /\ filter is_expect_event (snd (ssdp_help le cache skb protoff ct ctinfo)) = []
    /\ filter is_state_change (snd (ssdp_help le cache skb protoff ct ctinfo)) = [].
Proof.
  intros le cache skb protoff ct ctinfo Hd.
  rewrite <- cpu_to_be32_mcast in Hd.
  rewrite (ssdp_help_not_mcast le cache skb protoff ct ctinfo Hd).
  repeat split.
Qed.

Lemma C3_witness :
  query_dst ex_ct_unicast <> ipv4 true 239 255 255 250
  /\ ssdp_help true ex_cache (mk_skb ex_eth0 (ex_packet "M-SEARCH * HTTP/1.1"))
               ex_protoff ex_ct_unicast IP_CT_NEW
     = (Some NF_ACCEPT, [help_banner true ex_ct_unicast; EvDebug DbgNotMcast]).
Proof.
  assert (H : query_dst ex_ct_unicast <> ipv4 true 239 255 255 250)
    by (vm_compute; discriminate).
  split; [exact H |].
  exact (proj1 (C3_non_multicast_accepted_untouched true ex_cache
                  (mk_skb ex_eth0 (ex_packet "M-SEARCH * HTTP/1.1"))
                  ex_protoff ex_ct_unicast IP_CT_NEW H)).
Defined.

(** The handler looks at a packet only through its device and through the
    eight bytes [skb_header_pointer] hands out. *)
Lemma ssdp_help_ext (le : bool) (cache : nf_conn -> option nf_conntrack_expect)
      (skb skb' : sk_buff) (protoff : Z) (ct : nf_conn) (ctinfo : ip_conntrack_info) :
  dev skb = dev skb' ->
  skb_header_pointer skb (to_int (u32 (protoff + sizeof_udphdr))) SSDP_M_SEARCH_SIZE
  = skb_header_pointer skb' (to_int (u32 (protoff + sizeof_udphdr))) SSDP_M_SEARCH_SIZE ->
  ssdp_help le cache skb protoff ct ctinfo = ssdp_help le cache skb' protoff ct ctinfo.
Proof.
  intros Hdev Hp. unfold ssdp_help. rewrite Hp.
  assert (Hr : forall o, ssdp_src_netmask skb o = ssdp_src_netmask skb' o)
    by (intros o; unfold ssdp_src_netmask; rewrite Hdev; reflexivity).
  rewrite Hr. reflexivity.
Qed.

(** C4. With the UDP header at [protoff]: a payload shorter than eight bytes,
    or whose first eight bytes are not "M-SEARCH", is accepted and nothing
    reaches the expectation table; on a packet to 239.255.255.250 the
    handler then stops after the "too small" line when the payload is short
    and after the "does not begin with M-SEARCH" line when its first eight
    bytes differ.  The verdict and the events depend on the payload through
    its first eight bytes only; the eight bytes compared are inside the
    payload and the comparison never reads outside its buffers (the handler
    always reaches a verdict).  A payload whose first eight bytes are
    "M-SEARCH", the nine bytes "M-SEARCH " among them, passes the match: the
    handler goes on to the resolver and the verdict and table calls are
    those its result and the allocation decide; the seven bytes "M-SEARC"
    do not pass. *)
Theorem C4_payload_match_bounded :
  forall (le : bool) (cache : nf_conn -> option nf_conntrack_expect)
         (protoff : Z) (ct : nf_conn) (ctinfo : ip_conntrack_info),
    0 <= protoff < 2 ^ 31 - 8 ->
    (forall skb,
        (List.length (udp_payload skb protoff) < 8)%nat
        \/ firstn 8 (udp_payload skb protoff) <> m_search ->
        fst (ssdp_help le cache skb protoff ct ctinfo) = Some NF_ACCEPT
        /\ allocated (snd (ssdp_help le cache skb protoff ct ctinfo)) = []
        /\ registered (snd (ssdp_help le cache skb protoff ct ctinfo)) = []
        /\ filter is_state_change (snd (ssdp_help le cache skb protoff ct ctinfo)) = [])
    /\ (forall skb,
           query_dst ct = ipv4 le 239 255 255 250 ->
           ((List.length (udp_payload skb protoff) < 8)%nat ->
            ssdp_help le cache skb protoff ct ctinfo
            = (Some NF_ACCEPT, [help_banner le ct; EvDebug DbgTooSmall]))
           /\ ((8 <= List.length (udp_payload skb protoff))%nat ->
               firstn 8 (udp_payload skb protoff) <> m_search ->
               ssdp_help le cache skb protoff ct ctinfo
               = (Some NF_ACCEPT, [help_banner le ct; EvDebug DbgNotMSearch])))
    /\ (forall skb skb',
           dev skb = dev skb' ->
           firstn 8 (udp_payload skb protoff) = firstn 8 (udp_payload skb' protoff) ->
           ssdp_help le cache skb protoff ct ctinfo
           = ssdp_help le cache skb' protoff ct ctinfo)
    /\ (forall skb udpdata,
           skb_header_pointer skb (to_int (u32 (protoff + sizeof_udphdr)))
                              SSDP_M_SEARCH_SIZE = Some udpdata ->
           (8 <= List.length (udp_payload skb protoff))%nat
           /\ udpdata = firstn 8 (udp_payload skb protoff)
           /\ exists r, memcmp udpdata SSDP_M_SEARCH SSDP_M_SEARCH_SIZE = (Some r, [])
                        /\ (r = 0 <-> udpdata = m_search))
    /\ (forall skb, exists v,
           fst (ssdp_help le cache skb protoff ct ctinfo) = Some v)
    /\ (forall skb,
           firstn 8 (udp_payload skb protoff) = m_search ->
           query_dst ct = ipv4 le 239 255 255 250 ->
           exists m,
             fst (ssdp_src_netmask skb (tuplehash ct IP_CT_DIR_ORIGINAL)) = Some m
             /\ ssdp_help le cache skb protoff ct ctinfo
                = if m =? 0
                  then (Some NF_DROP,
                        help_banner le ct
                        :: snd (ssdp_src_netmask skb (tuplehash ct IP_CT_DIR_ORIGINAL)))
                  else match cache ct with
                       | None =>
                           (Some NF_DROP,
                            help_banner le ct
                            :: snd (ssdp_src_netmask skb (tuplehash ct IP_CT_DIR_ORIGINAL))
                            ++ [EvExpectAlloc None; EvWarn WarnAllocFailure])
                       | Some e0 =>
                           (Some NF_ACCEPT,
                            help_banner le ct
                            :: snd (ssdp_src_netmask skb (tuplehash ct IP_CT_DIR_ORIGINAL))
                            ++ [EvExpectAlloc (Some e0);
                                EvExpectRelated (built_expect ct m e0) 0;
                                EvExpectPut (built_expect ct m e0)])
                       end)
    /\ (forall skb,
           udp_payload skb protoff = list_byte_of_string "M-SEARCH " ->
           firstn 8 (udp_payload skb protoff) = m_search
           /\ (query_dst ct = ipv4 le 239 255 255 250 -> matched le skb protoff ct))
    /\ (forall skb,
           udp_payload skb protoff = list_byte_of_string "M-SEARC" ->
           ~ matched le skb protoff ct
           /\ (query_dst ct = ipv4 le 239 255 255 250 ->
               ssdp_help le cache skb protoff ct ctinfo
               = (Some NF_ACCEPT, [help_banner le ct; EvDebug DbgTooSmall]))).
Proof.
  intros le cache protoff ct ctinfo Hp.
  assert (Hptr := fun skb => skb_header_pointer_payload skb protoff Hp).
  assert (Hmiss : forall skb,
             (List.length (udp_payload skb protoff) < 8)%nat
             \/ firstn 8 (udp_payload skb protoff) <> m_search ->
             ~ matched le skb protoff ct).
  { intros skb Hbad [_ Hm]. rewrite Hptr in Hm.
    destruct (8 <=? List.length (udp_payload skb protoff))%nat eqn:El;
      [| discriminate].
    apply Nat.leb_le in El. injection Hm as Hm.
    destruct Hbad as [Hs|Hne]; [lia | contradiction]. }
  assert (Hshort : forall skb,
             query_dst ct = ipv4 le 239 255 255 250 ->
             (List.length (udp_payload skb protoff) < 8)%nat ->
             ssdp_help le cache skb protoff ct ctinfo
             = (Some NF_ACCEPT, [help_banner le ct; EvDebug DbgTooSmall])).
  { intros skb Hd Hs. rewrite <- cpu_to_be32_mcast in Hd.
    apply ssdp_help_too_small; [exact Hd |].
    rewrite Hptr. apply Nat.leb_gt in Hs. rewrite Hs. reflexivity. }
  assert (Hpass : forall skb,
             firstn 8 (udp_payload skb protoff) = m_search ->
             query_dst ct = ipv4 le 239 255 255 250 ->
             matched le skb protoff ct).
  { intros skb Hf Hd. apply well_formed_matched.
    split; [exact Hp |]. split; [exact Hd | exact Hf]. }
  split; [| split; [| split; [| split; [| split; [| split; [| split]]]]]].
  - intros skb Hbad.
    destruct (ssdp_help_unmatched le cache skb protoff ct ctinfo (Hmiss skb Hbad))
      as (d & ->).
    repeat split.
  - intros skb Hd. split; [apply Hshort; exact Hd |].
    intros Hl Hne. rewrite <- cpu_to_be32_mcast in Hd.
    apply (ssdp_help_not_m_search le cache skb protoff ct ctinfo
             (firstn 8 (udp_payload skb protoff)) Hd); [| exact Hne].
    rewrite Hptr. apply Nat.leb_le in Hl. rewrite Hl. reflexivity.
  - intros skb skb' Hdev Hfirst. apply ssdp_help_ext; [exact Hdev |].
    rewrite !Hptr, Hfirst.
    assert (Hl : List.length (firstn 8 (udp_payload skb protoff))
                 = List.length (firstn 8 (udp_payload skb' protoff)))
      by (rewrite Hfirst; reflexivity).
    rewrite !length_firstn in Hl.
    destruct (8 <=? List.length (udp_payload skb protoff))%nat eqn:E1;
      destruct (8 <=? List.length (udp_payload skb' protoff))%nat eqn:E2;
      try reflexivity;
      [apply Nat.leb_le in E1; apply Nat.leb_gt in E2
      |apply Nat.leb_gt in E1; apply Nat.leb_le in E2]; lia.
  - intros skb udpdata Hs.
    pose proof (skb_header_pointer_length _ _ _ _ Hs) as Hlen.
    rewrite SSDP_M_SEARCH_SIZE_eq in Hlen.
    rewrite Hptr in Hs.
    destruct (8 <=? List.length (udp_payload skb protoff))%nat eqn:El;
      [| discriminate].
    apply Nat.leb_le in El. injection Hs as Hs.
    split; [exact El |]. split; [symmetry; exact Hs |].
    destruct (memcmp_spec udpdata SSDP_M_SEARCH SSDP_M_SEARCH_SIZE)
      as (r & Hr & Hiff);
      [rewrite ?SSDP_M_SEARCH_SIZE_eq, ?sizeof_SSDP_M_SEARCH_eq; lia .. |].
    exists r. split; [exact Hr |].
    rewrite SSDP_M_SEARCH_SIZE_eq in Hiff.
    change (Z.to_nat 8) with 8%nat in Hiff.
    rewrite firstn_SSDP_M_SEARCH, firstn_all2 in Hiff by lia.
    exact Hiff.
  - intros skb.
    destruct (ssdp_help_returns le cache skb protoff ct ctinfo) as (v & Hv & _).
    exists v. exact Hv.
  - intros skb Hf Hd. destruct (Hpass skb Hf Hd) as [Hmd Hmp].
    exists (resolved_mask skb (query_src ct)).
    rewrite ssdp_src_netmask_run. cbn [fst snd]. fold (query_src ct).
    split; [reflexivity |].
    rewrite (ssdp_help_m_search le cache skb protoff ct ctinfo Hmd Hmp).
    unfold build_outcome.
    destruct (resolved_mask skb (query_src ct) =? 0).
    + cbn [fst snd]. rewrite app_nil_r. reflexivity.
    + destruct (cache ct); reflexivity.
  - intros skb Hpay.
    assert (Hf : firstn 8 (udp_payload skb protoff) = m_search)
      by (rewrite Hpay; reflexivity).
    split; [exact Hf | apply Hpass; exact Hf].
  - intros skb Hpay.
    assert (Hs : (List.length (udp_payload skb protoff) < 8)%nat)
      by (rewrite Hpay; simpl; lia).
    split; [apply Hmiss; left; exact Hs |].
    intros Hd. apply Hshort; assumption.
Qed.

Lemma C4_witness :
  0 <= ex_protoff < 2 ^ 31 - 8
  /\ ssdp_help true ex_cache (mk_skb ex_eth0 (ex_packet "M-SEARC"))
               ex_protoff ex_ct IP_CT_NEW
     = (Some NF_ACCEPT, [help_banner true ex_ct; EvDebug DbgTooSmall])
  /\ ssdp_help true ex_cache (mk_skb ex_eth0 (ex_packet "M-SEARCh"))
               ex_protoff ex_ct IP_CT_NEW
     = (Some NF_ACCEPT, [help_banner true ex_ct; EvDebug DbgNotMSearch])
  /\ fst (ssdp_help true ex_cache (mk_skb ex_eth0 (ex_packet "M-SEARCH "))
                    ex_protoff ex_ct IP_CT_NEW) = Some NF_ACCEPT
  /\ registered (snd (ssdp_help true ex_cache (mk_skb ex_eth0 (ex_packet "M-SEARCH "))
                                ex_protoff ex_ct IP_CT_NEW))
     = [built_expect ex_ct (ipv4 true 255 255 255 0) ex_slot]
  /\ fst (ssdp_help true ex_cache (mk_skb ex_eth0_other (ex_packet "M-SEARCH "))
                    ex_protoff ex_ct IP_CT_NEW) = Some NF_DROP.
Proof.
  assert (Hp : 0 <= ex_protoff < 2 ^ 31 - 8) by (unfold ex_protoff; lia).
  split; [exact Hp |].
  destruct (C4_payload_match_bounded true ex_cache ex_protoff ex_ct IP_CT_NEW Hp)
    as (_ & Hstop & _ & _ & _ & Hgo & _ & Hseven).
  assert (Hd : query_dst ex_ct = ipv4 true 239 255 255 250) by reflexivity.
  split; [exact (proj2 (Hseven (mk_skb ex_eth0 (ex_packet "M-SEARC")) eq_refl) Hd) |].
  split.
  { apply (proj2 (Hstop (mk_skb ex_eth0 (ex_packet "M-SEARCh")) Hd)).
    - vm_compute. lia.
    - vm_compute. discriminate. }
  destruct (Hgo (mk_skb ex_eth0 (ex_packet "M-SEARCH ")) eq_refl Hd)
    as (m & Hm & Hrun).
  destruct (Hgo (mk_skb ex_eth0_other (ex_packet "M-SEARCH ")) eq_refl Hd)
    as (m' & Hm' & Hrun').
  vm_compute in Hm. injection Hm as <-.
  vm_compute in Hm'. injection Hm' as <-.
  rewrite Hrun, Hrun'.
  split; [reflexivity |]. split; reflexivity.
Defined.

(* ================================================================== *)
(** ** Matched queries *)

Lemma resolved_mask_first (skb : sk_buff) (s : be32) (a : in_ifaddr) :
  first_local s (device_addrs (dev skb)) = Some a ->
  resolved_mask skb s = ifa_mask a.
Proof.
  unfold resolved_mask, device_addrs, netmask_of.
  destruct (ip_ptr (dev skb)) as [idev|]; [| discriminate].
  intros ->. reflexivity.
Qed.

Lemma resolved_mask_none (skb : sk_buff) (s : be32) :
  first_local s (device_addrs (dev skb)) = None ->
  resolved_mask skb s = 0.
Proof.
  unfold resolved_mask, device_addrs, netmask_of.
  destruct (ip_ptr (dev skb)) as [idev|]; [| reflexivity].
  intros ->. reflexivity.
Qed.

Lemma warnings_resolver_trace (skb : sk_buff) (s : be32) :
  warnings (resolver_trace skb s)
  = match ip_ptr (dev skb) with
    | None => [WarnNoAddresses (name (dev skb))]
    | Some _ => if resolved_mask skb s =? 0
                then [WarnNotAssigned s (name (dev skb))]
                else []
    end.
Proof.
  unfold resolver_trace, resolved_mask.
  destruct (ip_ptr (dev skb)) as [idev|]; [| reflexivity].
  cbn [warnings flat_map app].
  fold (warnings (scan_trace s (ifa_list idev) ++
        (if netmask_of s (ifa_list idev) =? 0
         then [EvWarn (WarnNotAssigned s (name (dev skb)))] else []) ++
        [EvInDevPut idev])).
  rewrite warnings_app.
  destruct (scan_trace_no_warning s (ifa_list idev)) as (-> & _).
  destruct (netmask_of s (ifa_list idev) =? 0); reflexivity.
Qed.

(** What an observer of a matched run sees is what follows the resolver. *)
Lemma observe_matched_run (le : bool) (ct : nf_conn) (skb : sk_buff) (s : be32)
      (tail : list event) :
  registered (help_banner le ct :: resolver_trace skb s ++ tail) = registered tail
  /\ allocated (help_banner le ct :: resolver_trace skb s ++ tail) = allocated tail
  /\ filter is_expect_event (help_banner le ct :: resolver_trace skb s ++ tail)
     = filter is_expect_event tail
  /\ warnings (help_banner le ct :: resolver_trace skb s ++ tail)
     = warnings (resolver_trace skb s) ++ warnings tail.
Proof.
  destruct (resolver_trace_quiet skb s) as (Q1 & Q2 & Q3).
  unfold help_banner. cbn [registered allocated warnings flat_map filter
                           is_expect_event app].
  fold (registered (resolver_trace skb s ++ tail)).
  fold (allocated (resolver_trace skb s ++ tail)).
  fold (warnings (resolver_trace skb s ++ tail)).
  rewrite registered_app, allocated_app, warnings_app, filter_app, Q1, Q2, Q3.
  repeat split.
Qed.

Section MatchedPaths.

Variable le : bool.
Variable cache : nf_conn -> option nf_conntrack_expect.
Variables (skb : sk_buff) (protoff : Z) (ct : nf_conn) (ctinfo : ip_conntrack_info).
Hypothesis Hm : matched le skb protoff ct.

Lemma ssdp_help_resolve_fail :
  resolved_mask skb (query_src ct) = 0 ->
  ssdp_help le cache skb protoff ct ctinfo
  = (Some NF_DROP, help_banner le ct :: resolver_trace skb (query_src ct)).
Proof.
  intros H0. destruct Hm as [Hd Hp].
  rewrite (ssdp_help_m_search le cache skb protoff ct ctinfo Hd Hp).
  unfold build_outcome. rewrite H0. cbn [Z.eqb fst snd].
  rewrite app_nil_r. reflexivity.
Qed.

Lemma ssdp_help_alloc_fail :
  resolved_mask skb (query_src ct) <> 0 ->
  cache ct = None ->
  ssdp_help le cache skb protoff ct ctinfo
  = (Some NF_DROP,
     help_banner le ct :: resolver_trace skb (query_src ct)
     ++ [EvExpectAlloc None; EvWarn WarnAllocFailure]).
Proof.
  intros Hn Hc. destruct Hm as [Hd Hp]. apply Z.eqb_neq in Hn.
  rewrite (ssdp_help_m_search le cache skb protoff ct ctinfo Hd Hp).
  unfold build_outcome. rewrite Hn, Hc. reflexivity.
Qed.

Lemma ssdp_help_success (e0 : nf_conntrack_expect) :
  resolved_mask skb (query_src ct) <> 0 ->
  cache ct = Some e0 ->
  ssdp_help le cache skb protoff ct ctinfo
  = (Some NF_ACCEPT,
     help_banner le ct :: resolver_trace skb (query_src ct)
     ++ [EvExpectAlloc (Some e0);
         EvExpectRelated (built_expect ct (resolved_mask skb (query_src ct)) e0) 0;
         EvExpectPut (built_expect ct (resolved_mask skb (query_src ct)) e0)]).
Proof.
  intros Hn Hc. destruct Hm as [Hd Hp]. apply Z.eqb_neq in Hn.
  rewrite (ssdp_help_m_search le cache skb protoff ct ctinfo Hd Hp).
  unfold build_outcome. rewrite Hn, Hc. reflexivity.
Qed.

End MatchedPaths.

(** C1, as stated, fails on an interface that carries the source address
    twice: 192.168.1.50 is configured with mask 255.255.255.0 (second entry),
    the query is well formed and allocation succeeds, yet the expectation's
    source-address mask is not 255.255.255.0 (it is the first entry's
    255.255.0.0). *)
Lemma C1_counterexample :
  well_formed_query true (mk_skb ex_eth0_twice (ex_packet "M-SEARCH * HTTP/1.1"))
                    ex_protoff ex_ct
  /\ query_src ex_ct = ex_src
  /\ In (mk_ifaddr ex_src (ipv4 true 255 255 255 0) "eth0")
        (device_addrs (dev (mk_skb ex_eth0_twice (ex_packet "M-SEARCH * HTTP/1.1"))))
  /\ ipv4 true 255 255 255 0 <> 0
  /\ ex_cache ex_ct = Some ex_slot
  /\ ~ authorises_subnet true ex_cache
         (ssdp_help true ex_cache
                    (mk_skb ex_eth0_twice (ex_packet "M-SEARCH * HTTP/1.1"))
                    ex_protoff ex_ct IP_CT_NEW)
         (ipv4 true 255 255 255 0).
Proof.
  split; [repeat split; vm_compute; congruence |].
  split; [reflexivity |].
  split; [right; left; reflexivity |].
  split; [vm_compute; discriminate |].
  split; [reflexivity |].
  intros (_ & e & He & Hmask & _).
  vm_compute in He. injection He as <-.
  vm_compute in Hmask. discriminate Hmask.
Qed.

(** C1 (amended). For a well-formed query from source address [s] received
    on an interface whose first address-list entry with local address [s]
    carries the non-zero mask [m], with allocation succeeding, [ssdp_help]
    returns ACCEPT and hands exactly one expectation to the table; its
    source-address mask is [m], its source-port mask is the all-ones 0xffff,
    and the helper's policy for it has [max_expected = 1] and [timeout = 1]. *)
Theorem C1_query_authorises_first_subnet :
  forall (le : bool) (cache : nf_conn -> option nf_conntrack_expect)
         (skb : sk_buff) (protoff : Z) (ct : nf_conn) (ctinfo : ip_conntrack_info)
         (s m : be32) (a : in_ifaddr) (e0 : nf_conntrack_expect),
    well_formed_query le skb protoff ct ->
    query_src ct = s ->
    first_local s (device_addrs (dev skb)) = Some a ->
    ifa_mask a = m ->
    m <> 0 ->
    cache ct = Some e0 ->
    authorises_subnet le cache (ssdp_help le cache skb protoff ct ctinfo) m
    /\ registered (snd (ssdp_help le cache skb protoff ct ctinfo))
       = [built_expect ct m e0]
    /\ allocated (snd (ssdp_help le cache skb protoff ct ctinfo)) = [e0]
    /\ cpu_to_be16 le 0xffff = 0xffff.
Proof.
  intros le cache skb protoff ct ctinfo s m a e0 Hwf HS Hfirst HM Hnz Hc.
  pose proof (well_formed_matched _ _ _ _ Hwf) as Hm.
  assert (Hres : resolved_mask skb (query_src ct) = m)
    by (rewrite HS, (resolved_mask_first _ _ _ Hfirst); exact HM).
  assert (Hres0 : resolved_mask skb (query_src ct) <> 0) by (rewrite Hres; exact Hnz).
  rewrite (ssdp_help_success le cache skb protoff ct ctinfo Hm e0 Hres0 Hc).
  unfold authorises_subnet. cbn [fst snd].
  destruct (observe_matched_run le ct skb (query_src ct)
              [EvExpectAlloc (Some e0);
               EvExpectRelated (built_expect ct (resolved_mask skb (query_src ct)) e0) 0;
               EvExpectPut (built_expect ct (resolved_mask skb (query_src ct)) e0)])
    as (-> & -> & _ & _).
  rewrite Hres. cbn [registered allocated flat_map app].
  split; [| split; [reflexivity | split; [reflexivity | apply cpu_to_be16_all_ones]]].
  split; [reflexivity |].
  exists (built_expect ct m e0). split; [reflexivity |].
  split; [reflexivity |]. split; [reflexivity |].
  exists ssdp_policy. repeat split.
Qed.

Lemma C1_witness :
  authorises_subnet true ex_cache
    (ssdp_help true ex_cache (mk_skb ex_eth0 (ex_packet "M-SEARCH * HTTP/1.1"))
               ex_protoff ex_ct IP_CT_NEW)
    (ipv4 true 255 255 255 0).
Proof.
  refine (proj1 (C1_query_authorises_first_subnet true ex_cache
                   (mk_skb ex_eth0 (ex_packet "M-SEARCH * HTTP/1.1"))
                   ex_protoff ex_ct IP_CT_NEW ex_src (ipv4 true 255 255 255 0)
                   (mk_ifaddr ex_src (ipv4 true 255 255 255 0) "eth0") ex_slot
                   _ _ _ _ _ _)).
  - repeat split; vm_compute; congruence.
  - reflexivity.
  - reflexivity.
  - reflexivity.
  - vm_compute; discriminate.
  - reflexivity.
Defined.

(* ================================================================== *)
(** ** The expectation that is built *)

(** C2, as stated, fails on the plain flow 192.168.1.50:50000 ->
    239.255.255.250:1900 whose reply tuple is its mirror image: the run
    succeeds, and the tuple of the expectation is not the reply tuple with
    the original destination address 239.255.255.250 as source address; its
    source address is 192.168.1.50. *)
Lemma C2_counterexample :
  fst (ssdp_help true ex_cache (mk_skb ex_eth0 (ex_packet "M-SEARCH * HTTP/1.1"))
                 ex_protoff ex_ct IP_CT_NEW) = Some NF_ACCEPT
  /\ exists e,
      registered (snd (ssdp_help true ex_cache
                                 (mk_skb ex_eth0 (ex_packet "M-SEARCH * HTTP/1.1"))
                                 ex_protoff ex_ct IP_CT_NEW)) = [e]
      /\ query_dst ex_ct = ipv4 true 239 255 255 250
      /\ tuple e <> set_src_u3_ip (tuplehash ex_ct IP_CT_DIR_REPLY) (query_dst ex_ct)
      /\ ip (u3 (src (tuple e))) = ipv4 true 192 168 1 50
      /\ ip (u3 (src (tuple e))) <> query_dst ex_ct.
Proof.
  split; [reflexivity |].
  eexists. split; [vm_compute; reflexivity |].
  split; [reflexivity |].
  split; [vm_compute; discriminate |].
  split; [reflexivity |].
  vm_compute; discriminate.
Qed.

(** C2 (amended). Every expectation the handler hands to the table carries
    the reply-direction tuple of the flow with its source address field
    overwritten with that tuple's own destination address; every other field
    of the reply tuple is kept.  When the reply tuple's destination address
    is the query's source address (a flow that is not address-translated),
    the expectation's source address is therefore the requester's address,
    not the multicast group address. *)
Theorem C2_expect_tuple_from_reply :
  forall (le : bool) (cache : nf_conn -> option nf_conntrack_expect)
         (skb : sk_buff) (protoff : Z) (ct : nf_conn) (ctinfo : ip_conntrack_info)
         (e : nf_conntrack_expect),
    In e (registered (snd (ssdp_help le cache skb protoff ct ctinfo))) ->
    tuple e
    = set_src_u3_ip (tuplehash ct IP_CT_DIR_REPLY)
                    (ip (dst_u3 (dst (tuplehash ct IP_CT_DIR_REPLY))))
    /\ ip (u3 (src (tuple e))) = ip (dst_u3 (dst (tuplehash ct IP_CT_DIR_REPLY)))
    /\ dst (tuple e) = dst (tuplehash ct IP_CT_DIR_REPLY)
    /\ udp_port (src (tuple e)) = udp_port (src (tuplehash ct IP_CT_DIR_REPLY))
    /\ l3num (src (tuple e)) = l3num (src (tuplehash ct IP_CT_DIR_REPLY))
    /\ (ip (dst_u3 (dst (tuplehash ct IP_CT_DIR_REPLY))) = query_src ct ->
        query_src ct <> query_dst ct ->
        ip (u3 (src (tuple e))) = query_src ct
        /\ ip (u3 (src (tuple e))) <> ipv4 le 239 255 255 250).
Proof.
  intros le cache skb protoff ct ctinfo e Hin.
  destruct (ssdp_help_registered_inv le cache skb protoff ct ctinfo e Hin)
    as ([Hd _] & _ & e0 & _ & -> & _ & _).
  cbn [built_expect tuple tuplehash set_src_u3_ip src dst u3 ip set_ip udp_port l3num].
  repeat split; try assumption.
  rewrite <- cpu_to_be32_mcast, <- Hd. congruence.
Qed.

Lemma C2_witness :
  In (built_expect ex_ct (ipv4 true 255 255 255 0) ex_slot)
     (registered (snd (ssdp_help true ex_cache
                                 (mk_skb ex_eth0 (ex_packet "M-SEARCH * HTTP/1.1"))
                                 ex_protoff ex_ct IP_CT_NEW)))
  /\ tuple (built_expect ex_ct (ipv4 true 255 255 255 0) ex_slot)
     = set_src_u3_ip (tuplehash ex_ct IP_CT_DIR_REPLY)
                     (ip (dst_u3 (dst (tuplehash ex_ct IP_CT_DIR_REPLY)))).
Proof.
  assert (H : In (built_expect ex_ct (ipv4 true 255 255 255 0) ex_slot)
                 (registered (snd (ssdp_help true ex_cache
                                    (mk_skb ex_eth0 (ex_packet "M-SEARCH * HTTP/1.1"))
                                    ex_protoff ex_ct IP_CT_NEW))))
    by (left; reflexivity).
  split; [exact H |].
  exact (proj1 (C2_expect_tuple_from_reply true ex_cache
                  (mk_skb ex_eth0 (ex_packet "M-SEARCH * HTTP/1.1"))
                  ex_protoff ex_ct IP_CT_NEW _ H)).
Defined.

(** C10. In every expectation the handler hands to the table, the mask is
    the all-zero mask except for its source address and source port: the
    rest of the source address union, the source protocol family and every
    destination field (address, port, protocol, direction) are zero. *)
Theorem C10_mask_constrains_source_only :
  forall (le : bool) (cache : nf_conn -> option nf_conntrack_expect)
         (skb : sk_buff) (protoff : Z) (ct : nf_conn) (ctinfo : ip_conntrack_info)
         (e : nf_conntrack_expect),
    In e (registered (snd (ssdp_help le cache skb protoff ct ctinfo))) ->
    mask e
    = set_src_udp_port (set_src_u3_ip zero_mask (ip (u3 (src (mask e)))))
                       (udp_port (src (mask e)))
    /\ all1 (u3 (src (mask e))) = 0
    /\ all2 (u3 (src (mask e))) = 0
    /\ all3 (u3 (src (mask e))) = 0
    /\ l3num (src (mask e)) = 0
    /\ dst_u3 (dst (mask e)) = zero_addr
    /\ dst_udp_port (dst (mask e)) = 0
    /\ protonum (dst (mask e)) = 0
    /\ dir (dst (mask e)) = 0.
Proof.
  intros le cache skb protoff ct ctinfo e Hin.
  destruct (ssdp_help_registered_inv le cache skb protoff ct ctinfo e Hin)
    as (_ & _ & e0 & _ & -> & _ & _).
  repeat split.
Qed.

Lemma C10_witness :
  In (built_expect ex_ct (ipv4 true 255 255 255 0) ex_slot)
     (registered (snd (ssdp_help true ex_cache
                                 (mk_skb ex_eth0 (ex_packet "M-SEARCH * HTTP/1.1"))
                                 ex_protoff ex_ct IP_CT_NEW)))
  /\ dst_u3 (dst (mask (built_expect ex_ct (ipv4 true 255 255 255 0) ex_slot)))
     = zero_addr
  /\ dst_udp_port (dst (mask (built_expect ex_ct (ipv4 true 255 255 255 0) ex_slot)))
     = 0.
Proof.
  assert (H : In (built_expect ex_ct (ipv4 true 255 255 255 0) ex_slot)
                 (registered (snd (ssdp_help true ex_cache
                                    (mk_skb ex_eth0 (ex_packet "M-SEARCH * HTTP/1.1"))
                                    ex_protoff ex_ct IP_CT_NEW))))
    by (left; reflexivity).
  split; [exact H |].
  destruct (C10_mask_constrains_source_only true ex_cache
              (mk_skb ex_eth0 (ex_packet "M-SEARCH * HTTP/1.1"))
              ex_protoff ex_ct IP_CT_NEW _ H)
    as (_ & _ & _ & _ & _ & H1 & H2 & _).
  exact (conj H1 H2).
Defined.

(* ================================================================== *)
(** ** Dropped queries *)

(** C5, as stated, fails on a device that has an address configuration
    listing no address at all: the query is dropped, and the one warning
    printed is the "source address not assigned" line, the very line printed
    on a device that has 10.0.0.1/24 only.  The diagnostic does not tell "no
    device addresses" from "address not found" there; the "no addresses"
    line is not printed. *)
Lemma C5_counterexample :
  device_addrs ex_eth0_empty = []
  /\ device_addrs ex_eth0_other
     = [mk_ifaddr (ipv4 true 10 0 0 1) (ipv4 true 255 255 255 0) "eth0"]
  /\ well_formed_query true (mk_skb ex_eth0_empty (ex_packet "M-SEARCH * HTTP/1.1"))
                       ex_protoff ex_ct
  /\ well_formed_query true (mk_skb ex_eth0_other (ex_packet "M-SEARCH * HTTP/1.1"))
                       ex_protoff ex_ct
  /\ fst (ssdp_help true ex_cache
                    (mk_skb ex_eth0_empty (ex_packet "M-SEARCH * HTTP/1.1"))
                    ex_protoff ex_ct IP_CT_NEW) = Some NF_DROP
  /\ warnings (snd (ssdp_help true ex_cache
                    (mk_skb ex_eth0_empty (ex_packet "M-SEARCH * HTTP/1.1"))
                    ex_protoff ex_ct IP_CT_NEW))
     = warnings (snd (ssdp_help true ex_cache
                    (mk_skb ex_eth0_other (ex_packet "M-SEARCH * HTTP/1.1"))
                    ex_protoff ex_ct IP_CT_NEW))
  /\ warnings (snd (ssdp_help true ex_cache
                    (mk_skb ex_eth0_empty (ex_packet "M-SEARCH * HTTP/1.1"))
                    ex_protoff ex_ct IP_CT_NEW))
     = [WarnNotAssigned ex_src "eth0"]
  /\ warnings (snd (ssdp_help true ex_cache
                    (mk_skb ex_eth0_empty (ex_packet "M-SEARCH * HTTP/1.1"))
                    ex_protoff ex_ct IP_CT_NEW))
     <> [WarnNoAddresses "eth0"].
Proof.
  split; [reflexivity |]. split; [reflexivity |].
  split; [repeat split; vm_compute; congruence |].
  split; [repeat split; vm_compute; congruence |].
  split; [reflexivity |]. split; [reflexivity |]. split; [reflexivity |].
  vm_compute. discriminate.
Qed.

(** C5 (amended). A matched M-SEARCH query whose source address is not a
    local address of the receiving device (the device has no IPv4 address
    configuration, so that [in_dev_get] returns [NULL], or none of the
    entries of its list, an empty list included, has that local address) is
    dropped; nothing reaches the expectation table; exactly one warning is
    printed, and it tells these two cases apart: the "no addresses assigned"
    line exactly when [in_dev_get] found no configuration, the "source
    address not assigned" line exactly when it found one. *)
Theorem C5_unresolved_source_dropped :
  forall (le : bool) (cache : nf_conn -> option nf_conntrack_expect)
         (skb : sk_buff) (protoff : Z) (ct : nf_conn) (ctinfo : ip_conntrack_info),
    well_formed_query le skb protoff ct ->
    ip_ptr (dev skb) = None
    \/ Forall (fun a => ifa_local a <> query_src ct) (device_addrs (dev skb)) ->
    fst (ssdp_help le cache skb protoff ct ctinfo) = Some NF_DROP
    /\ allocated (snd (ssdp_help le cache skb protoff ct ctinfo)) = []
    /\ registered (snd (ssdp_help le cache skb protoff ct ctinfo)) = []
    /\ filter is_expect_event (snd (ssdp_help le cache skb protoff ct ctinfo)) = []
    /\ warnings (snd (ssdp_help le cache skb protoff ct ctinfo))
       = [match ip_ptr (dev skb) with
          | None => WarnNoAddresses (name (dev skb))
          | Some _ => WarnNotAssigned (query_src ct) (name (dev skb))
          end]
    /\ (warnings (snd (ssdp_help le cache skb protoff ct ctinfo))
        = [WarnNoAddresses (name (dev skb))]
        <-> ip_ptr (dev skb) = None)
    /\ (warnings (snd (ssdp_help le cache skb protoff ct ctinfo))
        = [WarnNotAssigned (query_src ct) (name (dev skb))]
        <-> exists idev, ip_ptr (dev skb) = Some idev).
Proof.
  intros le cache skb protoff ct ctinfo Hwf Hcase.
  pose proof (well_formed_matched _ _ _ _ Hwf) as Hm.
  assert (Hnone : first_local (query_src ct) (device_addrs (dev skb)) = None).
  { destruct Hcase as [Hn|Hall].
    - unfold device_addrs. rewrite Hn. reflexivity.
    - apply first_local_none. exact Hall. }
  pose proof (resolved_mask_none _ _ Hnone) as H0.
  rewrite (ssdp_help_resolve_fail le cache skb protoff ct ctinfo Hm H0).
  cbn [fst snd].
  rewrite <- (app_nil_r (resolver_trace skb (query_src ct))).
  destruct (observe_matched_run le ct skb (query_src ct) [])
    as (-> & -> & -> & ->).
  rewrite warnings_resolver_trace, H0.
  split; [reflexivity |]. split; [reflexivity |]. split; [reflexivity |].
  split; [reflexivity |].
  destruct (ip_ptr (dev skb)) as [idev|]; cbn [Z.eqb app].
  - split; [reflexivity |]. split.
    + split; discriminate.
    + split; [intros _; exists idev; reflexivity | reflexivity].
  - split; [reflexivity |]. split.
    + split; reflexivity.
    + split; [discriminate | intros (idev & H); discriminate H].
Qed.

Lemma C5_witness :
  (fst (ssdp_help true ex_cache
                  (mk_skb ex_eth0_other (ex_packet "M-SEARCH * HTTP/1.1"))
                  ex_protoff ex_ct IP_CT_NEW) = Some NF_DROP
   /\ warnings (snd (ssdp_help true ex_cache
                  (mk_skb ex_eth0_other (ex_packet "M-SEARCH * HTTP/1.1"))
                  ex_protoff ex_ct IP_CT_NEW))
      = [WarnNotAssigned ex_src "eth0"])
  /\ (fst (ssdp_help true ex_cache
                     (mk_skb ex_eth0_bare (ex_packet "M-SEARCH * HTTP/1.1"))
                     ex_protoff ex_ct IP_CT_NEW) = Some NF_DROP
      /\ warnings (snd (ssdp_help true ex_cache
                     (mk_skb ex_eth0_bare (ex_packet "M-SEARCH * HTTP/1.1"))
                     ex_protoff ex_ct IP_CT_NEW))
         = [WarnNoAddresses "eth0"]).
Proof.
  split.
  - assert (Hwf : well_formed_query true
                    (mk_skb ex_eth0_other (ex_packet "M-SEARCH * HTTP/1.1"))
                    ex_protoff ex_ct)
      by (repeat split; vm_compute; congruence).
    assert (Hc : ip_ptr (dev (mk_skb ex_eth0_other (ex_packet "M-SEARCH * HTTP/1.1")))
                 = None
                 \/ Forall (fun a => ifa_local a <> query_src ex_ct)
                      (device_addrs
                         (dev (mk_skb ex_eth0_other (ex_packet "M-SEARCH * HTTP/1.1")))))
      by (right; repeat constructor; vm_compute; discriminate).
    destruct (C5_unresolved_source_dropped true ex_cache _ _ _ IP_CT_NEW Hwf Hc)
      as (Hv & _ & _ & _ & Hw & _).
    exact (conj Hv Hw).
  - assert (Hwf : well_formed_query true
                    (mk_skb ex_eth0_bare (ex_packet "M-SEARCH * HTTP/1.1"))
                    ex_protoff ex_ct)
      by (repeat split; vm_compute; congruence).
    destruct (C5_unresolved_source_dropped true ex_cache _ _ _ IP_CT_NEW Hwf
                (or_introl eq_refl))
      as (Hv & _ & _ & _ & Hw & _).
    exact (conj Hv Hw).
Defined.

(** C6. The handler never hands over an expectation whose source-address
    mask is zero, and a matched query for which the resolver returns 0 is
    dropped with nothing handed over.  When the entry found for the query's source address has
    the netmask 0.0.0.0, the resolver returns 0, the query is dropped and
    nothing reaches the expectation table; the verdict, the resolver's
    return value, the warning printed and the (absent) expectation traffic
    are those of the same packet on the same device when no entry has the
    source address. *)
Theorem C6_zero_mask_is_failure :
  forall (le : bool) (cache : nf_conn -> option nf_conntrack_expect)
         (skb : sk_buff) (protoff : Z) (ct : nf_conn) (ctinfo : ip_conntrack_info),
    (forall e,
        In e (registered (snd (ssdp_help le cache skb protoff ct ctinfo))) ->
        ip (u3 (src (mask e))) <> 0)
    /\ (matched le skb protoff ct ->
        fst (ssdp_src_netmask skb (tuplehash ct IP_CT_DIR_ORIGINAL)) = Some 0 ->
        fst (ssdp_help le cache skb protoff ct ctinfo) = Some NF_DROP
        /\ registered (snd (ssdp_help le cache skb protoff ct ctinfo)) = [])
    /\ (forall a,
           well_formed_query le skb protoff ct ->
           first_local (query_src ct) (device_addrs (dev skb)) = Some a ->
           ifa_mask a = 0 ->
           fst (ssdp_src_netmask skb (tuplehash ct IP_CT_DIR_ORIGINAL)) = Some 0
           /\ fst (ssdp_help le cache skb protoff ct ctinfo) = Some NF_DROP
           /\ allocated (snd (ssdp_help le cache skb protoff ct ctinfo)) = []
           /\ registered (snd (ssdp_help le cache skb protoff ct ctinfo)) = []
           /\ filter is_expect_event (snd (ssdp_help le cache skb protoff ct ctinfo)) = []
           /\ warnings (snd (ssdp_help le cache skb protoff ct ctinfo))
              = [WarnNotAssigned (query_src ct) (name (dev skb))]
           /\ forall idev',
               Forall (fun b => ifa_local b <> query_src ct) (ifa_list idev') ->
               let skb' := mk_skb (mk_net_device (name (dev skb)) (Some idev'))
                                  (data skb) in
               fst (ssdp_src_netmask skb' (tuplehash ct IP_CT_DIR_ORIGINAL))
               = fst (ssdp_src_netmask skb (tuplehash ct IP_CT_DIR_ORIGINAL))
               /\ fst (ssdp_help le cache skb' protoff ct ctinfo)
                  = fst (ssdp_help le cache skb protoff ct ctinfo)
               /\ warnings (snd (ssdp_help le cache skb' protoff ct ctinfo))
                  = warnings (snd (ssdp_help le cache skb protoff ct ctinfo))
               /\ filter is_expect_event (snd (ssdp_help le cache skb' protoff ct ctinfo))
                  = filter is_expect_event (snd (ssdp_help le cache skb protoff ct ctinfo))).
Proof.
  intros le cache skb protoff ct ctinfo. split; [| split].
  - intros e Hin.
    destruct (ssdp_help_registered_inv le cache skb protoff ct ctinfo e Hin)
      as (_ & Hnz & e0 & _ & -> & _ & _).
    exact Hnz.
  - intros Hm Hret. rewrite ssdp_src_netmask_run in Hret.
    cbn [fst] in Hret. injection Hret as Hret.
    rewrite (ssdp_help_resolve_fail le cache skb protoff ct ctinfo Hm Hret).
    cbn [fst snd].
    rewrite <- (app_nil_r (resolver_trace skb (query_src ct))).
    destruct (observe_matched_run le ct skb (query_src ct) []) as (-> & _).
    split; reflexivity.
  - intros a Hwf Hfirst Hzero.
    pose proof (well_formed_matched _ _ _ _ Hwf) as Hm.
    assert (H0 : resolved_mask skb (query_src ct) = 0)
      by (rewrite (resolved_mask_first _ _ _ Hfirst); exact Hzero).
    assert (Hdev : exists idev, ip_ptr (dev skb) = Some idev).
    { unfold device_addrs in Hfirst.
      destruct (ip_ptr (dev skb)) as [idev|]; [eauto | discriminate]. }
    destruct Hdev as (idev & Hdev).
    assert (Hrun : forall s : sk_buff,
               matched le s protoff ct ->
               resolved_mask s (query_src ct) = 0 ->
               (exists i, ip_ptr (dev s) = Some i) ->
               fst (ssdp_help le cache s protoff ct ctinfo) = Some NF_DROP
               /\ allocated (snd (ssdp_help le cache s protoff ct ctinfo)) = []
               /\ registered (snd (ssdp_help le cache s protoff ct ctinfo)) = []
               /\ filter is_expect_event (snd (ssdp_help le cache s protoff ct ctinfo)) = []
               /\ warnings (snd (ssdp_help le cache s protoff ct ctinfo))
                  = [WarnNotAssigned (query_src ct) (name (dev s))]).
    { intros s Hms Hs0 (i & Hi).
      rewrite (ssdp_help_resolve_fail le cache s protoff ct ctinfo Hms Hs0).
      cbn [fst snd].
      rewrite <- (app_nil_r (resolver_trace s (query_src ct))).
      destruct (observe_matched_run le ct s (query_src ct) [])
        as (-> & -> & -> & ->).
      rewrite warnings_resolver_trace, Hs0, Hi. repeat split. }
    destruct (Hrun skb Hm H0 (ex_intro _ idev Hdev)) as (Hv & Ha & Hr & He & Hw).
    assert (Hval : forall s : sk_buff,
               fst (ssdp_src_netmask s (tuplehash ct IP_CT_DIR_ORIGINAL))
               = Some (resolved_mask s (query_src ct)))
      by (intros s; rewrite ssdp_src_netmask_run; reflexivity).
    split; [rewrite Hval, H0; reflexivity |].
    split; [exact Hv |]. split; [exact Ha |]. split; [exact Hr |].
    split; [exact He |]. split; [exact Hw |].
    intros idev' Hall skb'.
    assert (Hm' : matched le skb' protoff ct).
    { destruct Hm as [Hd Hp]. split; [exact Hd |]. exact Hp. }
    assert (H0' : resolved_mask skb' (query_src ct) = 0).
    { apply resolved_mask_none. apply first_local_none. exact Hall. }
    destruct (Hrun skb' Hm' H0' (ex_intro _ idev' eq_refl))
      as (Hv' & _ & _ & He' & Hw').
    rewrite !Hval, H0, H0', Hv, Hv', He, He', Hw, Hw'.
    repeat split.
Qed.

Lemma C6_witness :
  fst (ssdp_help true ex_cache
                 (mk_skb ex_eth0_zero (ex_packet "M-SEARCH * HTTP/1.1"))
                 ex_protoff ex_ct IP_CT_NEW) = Some NF_DROP
  /\ registered (snd (ssdp_help true ex_cache
                 (mk_skb ex_eth0_zero (ex_packet "M-SEARCH * HTTP/1.1"))
                 ex_protoff ex_ct IP_CT_NEW)) = []
  /\ warnings (snd (ssdp_help true ex_cache
                 (mk_skb ex_eth0_zero (ex_packet "M-SEARCH * HTTP/1.1"))
                 ex_protoff ex_ct IP_CT_NEW))
     = [WarnNotAssigned ex_src "eth0"].
Proof.
  assert (Hwf : well_formed_query true
                  (mk_skb ex_eth0_zero (ex_packet "M-SEARCH * HTTP/1.1"))
                  ex_protoff ex_ct)
    by (repeat split; vm_compute; congruence).
  destruct (proj2 (proj2 (C6_zero_mask_is_failure true ex_cache
                            (mk_skb ex_eth0_zero (ex_packet "M-SEARCH * HTTP/1.1"))
                            ex_protoff ex_ct IP_CT_NEW))
                  (mk_ifaddr ex_src 0 "eth0") Hwf eq_refl eq_refl)
    as (_ & Hv & _ & Hr & _ & Hw & _).
  exact (conj Hv (conj Hr Hw)).
Defined.

(** C7. When classification and payload match have succeeded, the resolver
    has returned a non-zero mask and allocation fails, the handler returns
    DROP, prints the allocation warning and hands nothing to the table.
    Over all inputs the handler returns DROP exactly when a matched query
    either gets 0 from the resolver or fails allocation; every other run
    returns ACCEPT. *)
Theorem C7_allocation_failure_dropped :
  forall (le : bool) (cache : nf_conn -> option nf_conntrack_expect)
         (skb : sk_buff) (protoff : Z) (ct : nf_conn) (ctinfo : ip_conntrack_info),
    (forall m,
        matched le skb protoff ct ->
        fst (ssdp_src_netmask skb (tuplehash ct IP_CT_DIR_ORIGINAL)) = Some m ->
        m <> 0 ->
        cache ct = None ->
        fst (ssdp_help le cache skb protoff ct ctinfo) = Some NF_DROP
        /\ warnings (snd (ssdp_help le cache skb protoff ct ctinfo)) = [WarnAllocFailure]
        /\ allocated (snd (ssdp_help le cache skb protoff ct ctinfo)) = []
        /\ registered (snd (ssdp_help le cache skb protoff ct ctinfo)) = [])
    /\ (fst (ssdp_help le cache skb protoff ct ctinfo) = Some NF_DROP
        <-> matched le skb protoff ct
            /\ (fst (ssdp_src_netmask skb (tuplehash ct IP_CT_DIR_ORIGINAL)) = Some 0
                \/ cache ct = None))
    /\ (fst (ssdp_help le cache skb protoff ct ctinfo) = Some NF_DROP
        \/ fst (ssdp_help le cache skb protoff ct ctinfo) = Some NF_ACCEPT).
Proof.
  intros le cache skb protoff ct ctinfo.
  assert (Hval : fst (ssdp_src_netmask skb (tuplehash ct IP_CT_DIR_ORIGINAL))
                 = Some (resolved_mask skb (query_src ct)))
    by (rewrite ssdp_src_netmask_run; reflexivity).
  rewrite Hval.
  split; [| split].
  - intros m Hm Hret Hnz Hc. injection Hret as <-.
    rewrite (ssdp_help_alloc_fail le cache skb protoff ct ctinfo Hm Hnz Hc).
    cbn [fst snd].
    destruct (observe_matched_run le ct skb (query_src ct)
                [EvExpectAlloc None; EvWarn WarnAllocFailure])
      as (-> & -> & _ & ->).
    rewrite warnings_resolver_trace.
    assert (Hdev : exists idev, ip_ptr (dev skb) = Some idev).
    { unfold resolved_mask in Hnz.
      destruct (ip_ptr (dev skb)) as [idev|]; [eauto | contradiction]. }
    apply Z.eqb_neq in Hnz. rewrite Hnz.
    destruct Hdev as (idev & ->).
    repeat split.
  - destruct (matched_dec le skb protoff ct) as [Hm|Hn].
    + destruct (Z.eq_dec (resolved_mask skb (query_src ct)) 0) as [H0|Hnz].
      * rewrite (ssdp_help_resolve_fail le cache skb protoff ct ctinfo Hm H0).
        cbn [fst]. rewrite H0. tauto.
      * destruct (cache ct) as [e0|] eqn:Hc.
        -- rewrite (ssdp_help_success le cache skb protoff ct ctinfo Hm e0 Hnz Hc).
           cbn [fst]. split; [discriminate |].
           intros (_ & [H0|Hx]); [| discriminate].
           injection H0 as H0. contradiction.
        -- rewrite (ssdp_help_alloc_fail le cache skb protoff ct ctinfo Hm Hnz Hc).
           cbn [fst]. tauto.
    + destruct (ssdp_help_unmatched le cache skb protoff ct ctinfo Hn) as (d & ->).
      cbn [fst]. split; [discriminate | tauto].
  - destruct (ssdp_help_returns le cache skb protoff ct ctinfo) as (v & -> & [->| ->]);
      [right | left]; reflexivity.
Qed.

Lemma C7_witness :
  fst (ssdp_help true ex_cache_empty
                 (mk_skb ex_eth0 (ex_packet "M-SEARCH * HTTP/1.1"))
                 ex_protoff ex_ct IP_CT_NEW) = Some NF_DROP
  /\ warnings (snd (ssdp_help true ex_cache_empty
                 (mk_skb ex_eth0 (ex_packet "M-SEARCH * HTTP/1.1"))
                 ex_protoff ex_ct IP_CT_NEW)) = [WarnAllocFailure]
  /\ allocated (snd (ssdp_help true ex_cache_empty
                 (mk_skb ex_eth0 (ex_packet "M-SEARCH * HTTP/1.1"))
                 ex_protoff ex_ct IP_CT_NEW)) = []
  /\ registered (snd (ssdp_help true ex_cache_empty
                 (mk_skb ex_eth0 (ex_packet "M-SEARCH * HTTP/1.1"))
                 ex_protoff ex_ct IP_CT_NEW)) = [].
Proof.
  apply (proj1 (C7_allocation_failure_dropped true ex_cache_empty
                  (mk_skb ex_eth0 (ex_packet "M-SEARCH * HTTP/1.1"))
                  ex_protoff ex_ct IP_CT_NEW) (ipv4 true 255 255 255 0)).
  - split; reflexivity.
  - reflexivity.
  - vm_compute; discriminate.
  - reflexivity.
Defined.

(* ================================================================== *)
(** ** The subnet resolver *)

Lemma scan_trace_keeps_ref (s : be32) (l : list in_ifaddr) :
  forallb keeps_ref (scan_trace s l) = true.
Proof.
  induction l as [|a l IH]; cbn [scan_trace forallb keeps_ref andb];
    [reflexivity |].
  destruct (ifa_local a =? s); [reflexivity | exact IH].
Qed.

Lemma keeps_ref_counts (t : list event) :
  forallb keeps_ref t = true -> count_holds t = 0%nat /\ count_puts t = 0%nat.
Proof.
  unfold count_holds, count_puts.
  induction t as [|ev t IH]; cbn [forallb filter]; [split; reflexivity |].
  intros H. apply andb_prop in H as [Hev Ht].
  destruct ev; try discriminate Hev; exact (IH Ht).
Qed.

Lemma count_holds_app (t1 t2 : list event) :
  count_holds (t1 ++ t2) = (count_holds t1 + count_holds t2)%nat.
Proof. unfold count_holds. rewrite filter_app, length_app. reflexivity. Qed.

Lemma count_puts_app (t1 t2 : list event) :
  count_puts (t1 ++ t2) = (count_puts t1 + count_puts t2)%nat.
Proof. unfold count_puts. rewrite filter_app, length_app. reflexivity. Qed.

Lemma keeps_ref_refs (t rest : list event) :
  forallb keeps_ref t = true ->
  forall n, in_dev_refs n (t ++ rest) = in_dev_refs n rest.
Proof.
  induction t as [|ev t IH]; cbn [forallb app]; [reflexivity |].
  intros H n. apply andb_prop in H as [Hev Ht].
  destruct ev; try discriminate Hev; cbn [in_dev_refs]; exact (IH Ht n).
Qed.

Lemma keeps_ref_reads (t rest : list event) :
  forallb keeps_ref t = true ->
  forall n, 0 < n -> reads_under_ref n rest -> reads_under_ref n (t ++ rest).
Proof.
  induction t as [|ev t IH]; cbn [forallb app]; [tauto |].
  intros H n Hn Hrest. apply andb_prop in H as [Hev Ht].
  destruct ev; try discriminate Hev; cbn [reads_under_ref];
    try split; try exact Hn; exact (IH Ht n Hn Hrest).
Qed.

Lemma reads_scan_trace (s : be32) (pre post : list in_ifaddr) (a : in_ifaddr) :
  Forall (fun b => ifa_local b <> s) pre ->
  ifa_local a = s ->
  reads (scan_trace s (pre ++ a :: post)) = pre ++ [a]
  /\ scan_trace s (pre ++ a :: post) = scan_trace s (pre ++ [a]).
Proof.
  intros Hpre Ha.
  induction Hpre as [|b pre Hb _ [IH1 IH2]]; cbn [app scan_trace].
  - rewrite Ha, Z.eqb_refl. split; reflexivity.
  - apply Z.eqb_neq in Hb. rewrite Hb.
    cbn [reads flat_map app]. fold (reads (scan_trace s (pre ++ a :: post))).
    rewrite IH1, IH2. split; reflexivity.
Qed.

(** C8. When the device has an address configuration, the resolver takes
    the reference first and releases it last, once each, with nothing but
    reads, log lines and no further reference traffic in between: this holds
    whatever the list contains (a match, no match, or no entry at all), and
    no entry is read after the release.  When the device has none, no
    reference is taken, none is released and no entry is read.  Either way
    the count of references is back where it started and the resolver
    returns. *)
Theorem C8_resolver_reference_balanced :
  forall (skb : sk_buff) (orig : nf_conntrack_tuple),
    (exists r, fst (ssdp_src_netmask skb orig) = Some r)
    /\ match ip_ptr (dev skb) with
       | Some idev =>
           exists mid,
             snd (ssdp_src_netmask skb orig)
             = EvInDevHold idev :: mid ++ [EvInDevPut idev]
             /\ forallb keeps_ref mid = true
             /\ count_holds (snd (ssdp_src_netmask skb orig)) = 1%nat
             /\ count_puts (snd (ssdp_src_netmask skb orig)) = 1%nat
       | None =>
           count_holds (snd (ssdp_src_netmask skb orig)) = 0%nat
           /\ count_puts (snd (ssdp_src_netmask skb orig)) = 0%nat
           /\ reads (snd (ssdp_src_netmask skb orig)) = []
       end
    /\ reads_under_ref 0 (snd (ssdp_src_netmask skb orig))
    /\ forall n, in_dev_refs n (snd (ssdp_src_netmask skb orig)) = n.
Proof.
  intros skb orig. rewrite ssdp_src_netmask_run. cbn [fst snd].
  split; [eexists; reflexivity |].
  unfold resolver_trace.
  destruct (ip_ptr (dev skb)) as [idev|].
  - set (s := ip (u3 (src orig))).
    set (w := if netmask_of s (ifa_list idev) =? 0
              then [EvWarn (WarnNotAssigned s (name (dev skb)))] else []).
    assert (Hmid : forallb keeps_ref (scan_trace s (ifa_list idev) ++ w) = true).
    { rewrite forallb_app, scan_trace_keeps_ref. subst w.
      destruct (netmask_of s (ifa_list idev) =? 0); reflexivity. }
    assert (Hshape : scan_trace s (ifa_list idev) ++ w ++ [EvInDevPut idev]
                     = (scan_trace s (ifa_list idev) ++ w) ++ [EvInDevPut idev])
      by apply app_assoc.
    rewrite Hshape.
    destruct (keeps_ref_counts _ Hmid) as [Hh Hp].
    split; [| split].
    + exists (scan_trace s (ifa_list idev) ++ w).
      split; [reflexivity |]. split; [exact Hmid |].
      change (EvInDevHold idev :: (scan_trace s (ifa_list idev) ++ w) ++ [EvInDevPut idev])
        with ([EvInDevHold idev] ++ (scan_trace s (ifa_list idev) ++ w)
                                 ++ [EvInDevPut idev]).
      rewrite (count_holds_app [EvInDevHold idev]),
              (count_holds_app (scan_trace s (ifa_list idev) ++ w)),
              (count_puts_app [EvInDevHold idev]),
              (count_puts_app (scan_trace s (ifa_list idev) ++ w)), Hh, Hp.
      split; reflexivity.
    + cbn [reads_under_ref].
      apply keeps_ref_reads; [exact Hmid | lia | exact I].
    + intros n. cbn [in_dev_refs].
      rewrite (keeps_ref_refs _ _ Hmid). cbn [in_dev_refs]. lia.
  - repeat split.
Qed.

(** C9. The resolver answers with the mask of the first entry, in list
    order, whose local address is the source address: it reads the entries
    before it and that entry, and nothing after; whatever follows, entries
    with the same local address and another mask included, changes neither
    the result nor the run. *)
Theorem C9_resolver_first_match_wins :
  forall (skb : sk_buff) (orig : nf_conntrack_tuple) (idev : in_device)
         (pre post : list in_ifaddr) (a : in_ifaddr),
    ip_ptr (dev skb) = Some idev ->
    ifa_list idev = pre ++ a :: post ->
    Forall (fun b => ifa_local b <> ip (u3 (src orig))) pre ->
    ifa_local a = ip (u3 (src orig)) ->
    fst (ssdp_src_netmask skb orig) = Some (ifa_mask a)
    /\ reads (snd (ssdp_src_netmask skb orig)) = pre ++ [a]
    /\ ssdp_src_netmask_loop (pre ++ a :: post) orig 0
       = ssdp_src_netmask_loop (pre ++ [a]) orig 0.
Proof.
  intros skb orig idev pre post a Hdev Hlist Hpre Ha.
  rewrite ssdp_src_netmask_run, !ssdp_src_netmask_loop_run. cbn [fst snd].
  unfold resolved_mask, resolver_trace, netmask_of. rewrite Hdev, Hlist.
  rewrite (first_local_app _ pre post a Hpre Ha).
  rewrite (first_local_app _ pre [] a Hpre Ha).
  destruct (reads_scan_trace _ pre post a Hpre Ha) as [Hreads Hscan].
  split; [reflexivity |]. split; [| rewrite Hscan; reflexivity].
  cbn [reads flat_map app].
  fold (reads (scan_trace (ip (u3 (src orig))) (pre ++ a :: post) ++
               (if ifa_mask a =? 0
                then [EvWarn (WarnNotAssigned (ip (u3 (src orig))) (name (dev skb)))]
                else []) ++ [EvInDevPut idev])).
  unfold reads at 1. rewrite flat_map_app. fold (reads (scan_trace (ip (u3 (src orig)))
                                                                 (pre ++ a :: post))).
  rewrite Hreads.
  destruct (ifa_mask a =? 0); cbn [flat_map app]; rewrite app_nil_r; reflexivity.
Qed.

Lemma C9_witness :
  fst (ssdp_src_netmask (mk_skb ex_eth0_twice (ex_packet "M-SEARCH * HTTP/1.1")) ex_orig)
  = Some (ipv4 true 255 255 0 0)
  /\ reads (snd (ssdp_src_netmask
                   (mk_skb ex_eth0_twice (ex_packet "M-SEARCH * HTTP/1.1")) ex_orig))
     = [mk_ifaddr ex_src (ipv4 true 255 255 0 0) "eth0"].
Proof.
  destruct (C9_resolver_first_match_wins
              (mk_skb ex_eth0_twice (ex_packet "M-SEARCH * HTTP/1.1")) ex_orig
              (mk_in_device [mk_ifaddr ex_src (ipv4 true 255 255 0 0) "eth0";
                             mk_ifaddr ex_src (ipv4 true 255 255 255 0) "eth0"])
              []
              [mk_ifaddr ex_src (ipv4 true 255 255 255 0) "eth0"]
              (mk_ifaddr ex_src (ipv4 true 255 255 0 0) "eth0")
              eq_refl eq_refl (Forall_nil _) eq_refl)
    as (Hv & Hr & _).
  exact (conj Hv Hr).
Defined.

(* ================================================================== *)
(** ** Further properties of the handler *)

Lemma matched_has_device (skb : sk_buff) (s : be32) :
  resolved_mask skb s <> 0 -> exists idev, ip_ptr (dev skb) = Some idev.
Proof.
  unfold resolved_mask.
  destruct (ip_ptr (dev skb)) as [idev|]; [eauto | contradiction].
Qed.

Lemma warnings_resolver_nonzero (skb : sk_buff) (s : be32) :
  resolved_mask skb s <> 0 -> warnings (resolver_trace skb s) = [].
Proof.
  intros Hnz. rewrite warnings_resolver_trace.
  destruct (matched_has_device _ _ Hnz) as (idev & ->).
  apply Z.eqb_neq in Hnz. rewrite Hnz. reflexivity.
Qed.

Lemma warnings_resolver_zero (skb : sk_buff) (s : be32) :
  resolved_mask skb s = 0 ->
  warnings (resolver_trace skb s)
  = [match ip_ptr (dev skb) with
     | None => WarnNoAddresses (name (dev skb))
     | Some _ => WarnNotAssigned s (name (dev skb))
     end].
Proof.
  intros H0. rewrite warnings_resolver_trace, H0.
  destruct (ip_ptr (dev skb)); reflexivity.
Qed.

(** X1. Every run of the handler falls in one of three classes: the packet
    fails a test, and it is accepted with no warning and no change outside
    the helper; the packet passes both tests and is dropped, with nothing
    handed to the table and exactly one warning printed; the packet passes
    both tests and is accepted, with exactly one expectation handed to the
    table and no warning.  So the handler never drops silently and never
    accepts a matched query without its expectation. *)
Theorem X1_outcome_classes :
  forall (le : bool) (cache : nf_conn -> option nf_conntrack_expect)
         (skb : sk_buff) (protoff : Z) (ct : nf_conn) (ctinfo : ip_conntrack_info),
    (~ matched le skb protoff ct
     /\ fst (ssdp_help le cache skb protoff ct ctinfo) = Some NF_ACCEPT
     /\ filter is_state_change (snd (ssdp_help le cache skb protoff ct ctinfo)) = []
     /\ warnings (snd (ssdp_help le cache skb protoff ct ctinfo)) = [])
    \/ (matched le skb protoff ct
        /\ fst (ssdp_help le cache skb protoff ct ctinfo) = Some NF_DROP
        /\ registered (snd (ssdp_help le cache skb protoff ct ctinfo)) = []
        /\ exists w, warnings (snd (ssdp_help le cache skb protoff ct ctinfo)) = [w])
    \/ (matched le skb protoff ct
        /\ fst (ssdp_help le cache skb protoff ct ctinfo) = Some NF_ACCEPT
        /\ (exists e, registered (snd (ssdp_help le cache skb protoff ct ctinfo)) = [e])
        /\ warnings (snd (ssdp_help le cache skb protoff ct ctinfo)) = []).
Proof.
  intros le cache skb protoff ct ctinfo.
  destruct (matched_dec le skb protoff ct) as [Hm|Hn].
  - right.
    destruct (Z.eq_dec (resolved_mask skb (query_src ct)) 0) as [H0|Hnz].
    + left. split; [exact Hm |].
      rewrite (ssdp_help_resolve_fail le cache skb protoff ct ctinfo Hm H0).
      cbn [fst snd].
      rewrite <- (app_nil_r (resolver_trace skb (query_src ct))).
      destruct (observe_matched_run le ct skb (query_src ct) [])
        as (-> & _ & _ & ->).
      rewrite (warnings_resolver_zero _ _ H0).
      split; [reflexivity |]. split; [reflexivity |]. eexists. reflexivity.
    + destruct (cache ct) as [e0|] eqn:Hc.
      * right. split; [exact Hm |].
        rewrite (ssdp_help_success le cache skb protoff ct ctinfo Hm e0 Hnz Hc).
        cbn [fst snd].
        destruct (observe_matched_run le ct skb (query_src ct)
                    [EvExpectAlloc (Some e0);
                     EvExpectRelated
                       (built_expect ct (resolved_mask skb (query_src ct)) e0) 0;
                     EvExpectPut
                       (built_expect ct (resolved_mask skb (query_src ct)) e0)])
          as (-> & _ & _ & ->).
        rewrite (warnings_resolver_nonzero _ _ Hnz).
        split; [reflexivity |]. split; [eexists; reflexivity | reflexivity].
      * left. split; [exact Hm |].
        rewrite (ssdp_help_alloc_fail le cache skb protoff ct ctinfo Hm Hnz Hc).
        cbn [fst snd].
        destruct (observe_matched_run le ct skb (query_src ct)
                    [EvExpectAlloc None; EvWarn WarnAllocFailure])
          as (-> & _ & _ & ->).
        rewrite (warnings_resolver_nonzero _ _ Hnz).
        split; [reflexivity |]. split; [reflexivity |]. eexists. reflexivity.
  - left. split; [exact Hn |].
    destruct (ssdp_help_unmatched le cache skb protoff ct ctinfo Hn) as (d & ->).
    repeat split.
Qed.

(** The calls of a run to the expectation table, for every input, in terms
    of the mask the resolver reports. *)
Lemma ssdp_help_table_calls :
  forall (le : bool) (cache : nf_conn -> option nf_conntrack_expect)
         (skb : sk_buff) (protoff : Z) (ct : nf_conn) (ctinfo : ip_conntrack_info),
    filter is_expect_event (snd (ssdp_help le cache skb protoff ct ctinfo))
    = if matched_dec le skb protoff ct then
        if resolved_mask skb (query_src ct) =? 0 then []
        else match cache ct with
             | None => [EvExpectAlloc None]
             | Some e0 =>
                 [EvExpectAlloc (Some e0);
                  EvExpectRelated
                    (built_expect ct (resolved_mask skb (query_src ct)) e0) 0;
                  EvExpectPut
                    (built_expect ct (resolved_mask skb (query_src ct)) e0)]
             end
      else [].
Proof.
  intros le cache skb protoff ct ctinfo.
  destruct (matched_dec le skb protoff ct) as [[Hd Hp]|Hn].
  - rewrite (ssdp_help_m_search le cache skb protoff ct ctinfo Hd Hp).
    cbn [snd].
    destruct (observe_matched_run le ct skb (query_src ct)
                (snd (build_outcome cache ct (resolved_mask skb (query_src ct)))))
      as (_ & _ & -> & _).
    unfold build_outcome.
    destruct (resolved_mask skb (query_src ct) =? 0); [reflexivity |].
    destruct (cache ct); reflexivity.
  - destruct (ssdp_help_unmatched le cache skb protoff ct ctinfo Hn) as (d & ->).
    reflexivity.
Qed.

(** X2. The calls a run makes to the expectation table are fixed by three
    facts.  For a packet that fails a test, or whose resolver result is 0,
    there is none: not even an allocation is attempted.  Otherwise the
    allocation is attempted once; when it fails nothing follows; when it
    succeeds the slot is filled, handed to [nf_ct_expect_related] with flags
    0 and then released with [nf_ct_expect_put], once each, in that order
    and for the same expectation. *)
Theorem X2_table_call_sequence :
  forall (le : bool) (cache : nf_conn -> option nf_conntrack_expect)
         (skb : sk_buff) (protoff : Z) (ct : nf_conn) (ctinfo : ip_conntrack_info),
    filter is_expect_event (snd (ssdp_help le cache skb protoff ct ctinfo))
    = match fst (ssdp_src_netmask skb (tuplehash ct IP_CT_DIR_ORIGINAL)) with
      | Some m =>
          if matched_dec le skb protoff ct then
            if m =? 0 then []
            else match cache ct with
                 | None => [EvExpectAlloc None]
                 | Some e0 =>
                     [EvExpectAlloc (Some e0);
                      EvExpectRelated (built_expect ct m e0) 0;
                      EvExpectPut (built_expect ct m e0)]
                 end
          else []
      | None => []
      end.
Proof.
  intros le cache skb protoff ct ctinfo.
  rewrite ssdp_src_netmask_run. cbn [fst]. fold (query_src ct).
  rewrite ssdp_help_table_calls.
  destruct (matched_dec le skb protoff ct); reflexivity.
Qed.

(** X6. The source-address mask of every expectation the handler hands to
    the table is the netmask of an entry configured on the receiving device
    whose local address is exactly the query's source address (the first
    such entry): the handler never invents a mask and never borrows one from
    an entry with another local address. *)
Theorem X6_mask_comes_from_matching_entry :
  forall (le : bool) (cache : nf_conn -> option nf_conntrack_expect)
         (skb : sk_buff) (protoff : Z) (ct : nf_conn) (ctinfo : ip_conntrack_info)
         (e : nf_conntrack_expect),
    In e (registered (snd (ssdp_help le cache skb protoff ct ctinfo))) ->
    exists a,
      In a (device_addrs (dev skb))
      /\ ifa_local a = query_src ct
      /\ ifa_mask a = ip (u3 (src (mask e)))
      /\ first_local (query_src ct) (device_addrs (dev skb)) = Some a.
Proof.
  intros le cache skb protoff ct ctinfo e Hin.
  destruct (ssdp_help_registered_inv le cache skb protoff ct ctinfo e Hin)
    as (_ & Hnz & e0 & _ & -> & _ & _).
  destruct (first_local (query_src ct) (device_addrs (dev skb))) as [a|] eqn:Hf.
  - exists a. pose proof Hf as Hfind. unfold first_local in Hfind.
    apply find_some in Hfind as [Hin_a Hloc]. apply Z.eqb_eq in Hloc.
    split; [exact Hin_a |]. split; [exact Hloc |].
    split; [| reflexivity].
    rewrite (resolved_mask_first _ _ _ Hf). reflexivity.
  - exfalso. apply Hnz. apply resolved_mask_none. exact Hf.
Qed.

Lemma X6_witness :
  exists a,
    In a (device_addrs (dev (mk_skb ex_eth0_twice (ex_packet "M-SEARCH * HTTP/1.1"))))
    /\ ifa_local a = query_src ex_ct
    /\ ifa_mask a = ipv4 true 255 255 0 0.
Proof.
  destruct (X6_mask_comes_from_matching_entry true ex_cache
              (mk_skb ex_eth0_twice (ex_packet "M-SEARCH * HTTP/1.1"))
              ex_protoff ex_ct IP_CT_NEW
              (built_expect ex_ct (ipv4 true 255 255 0 0) ex_slot)
              (or_introl eq_refl))
    as (a & Hin & Hloc & Hmask & _).
  exists a. split; [exact Hin |]. split; [exact Hloc | exact Hmask].
Defined.

(** X7. The resolver prints a warning exactly when it returns 0, and then
    exactly one: the "no addresses" line when the device has no address
    configuration, the "not assigned" line otherwise.  A non-zero result
    comes with no warning. *)
Theorem X7_resolver_warns_iff_zero :
  forall (skb : sk_buff) (orig : nf_conntrack_tuple),
    exists m,
      fst (ssdp_src_netmask skb orig) = Some m
      /\ warnings (snd (ssdp_src_netmask skb orig))
         = if m =? 0
           then [match ip_ptr (dev skb) with
                 | None => WarnNoAddresses (name (dev skb))
                 | Some _ => WarnNotAssigned (ip (u3 (src orig))) (name (dev skb))
                 end]
           else [].
Proof.
  intros skb orig. rewrite ssdp_src_netmask_run. cbn [fst snd].
  exists (resolved_mask skb (ip (u3 (src orig)))). split; [reflexivity |].
  destruct (resolved_mask skb (ip (u3 (src orig))) =? 0) eqn:E.
  - apply Z.eqb_eq in E. apply warnings_resolver_zero. exact E.
  - apply Z.eqb_neq in E. apply warnings_resolver_nonzero. exact E.
Qed.

Lemma scan_trace_off_table (s : be32) (l : list in_ifaddr) :
  forallb off_table (scan_trace s l) = true.
Proof.
  induction l as [|a l IH]; cbn [scan_trace forallb off_table is_expect_event negb andb];
    [reflexivity |].
  destruct (ifa_local a =? s); [reflexivity | exact IH].
Qed.

Lemma quiet_unlocked (mid rest : list event) :
  forallb keeps_ref mid = true ->
  forallb off_table mid = true ->
  forall n, table_calls_unlocked n rest -> table_calls_unlocked n (mid ++ rest).
Proof.
  induction mid as [|ev mid IH]; cbn [forallb app]; [tauto |].
  intros H1 H2 n Hrest.
  apply andb_prop in H1 as [Hk Hmid1]. apply andb_prop in H2 as [Ho Hmid2].
  destruct ev; try discriminate Hk; try discriminate Ho;
    cbn [table_calls_unlocked]; exact (IH Hmid1 Hmid2 n Hrest).
Qed.

(** What the resolver's events do to the reference count and to the two
    disciplines, in front of any continuation. *)
Lemma resolver_trace_refs (skb : sk_buff) (s : be32) (tail : list event) :
  (forall n, in_dev_refs n (resolver_trace skb s ++ tail) = in_dev_refs n tail)
  /\ (reads_under_ref 0 tail -> reads_under_ref 0 (resolver_trace skb s ++ tail))
  /\ (table_calls_unlocked 0 tail ->
      table_calls_unlocked 0 (resolver_trace skb s ++ tail))
  /\ count_holds (resolver_trace skb s)
     = match ip_ptr (dev skb) with Some _ => 1%nat | None => 0%nat end
  /\ count_puts (resolver_trace skb s)
     = match ip_ptr (dev skb) with Some _ => 1%nat | None => 0%nat end.
Proof.
  unfold resolver_trace.
  destruct (ip_ptr (dev skb)) as [idev|]; [| repeat split; tauto].
  set (w := if netmask_of s (ifa_list idev) =? 0
            then [EvWarn (WarnNotAssigned s (name (dev skb)))] else []).
  assert (Hk : forallb keeps_ref (scan_trace s (ifa_list idev) ++ w) = true).
  { rewrite forallb_app, scan_trace_keeps_ref. subst w.
    destruct (netmask_of s (ifa_list idev) =? 0); reflexivity. }
  assert (Ho : forallb off_table (scan_trace s (ifa_list idev) ++ w) = true).
  { rewrite forallb_app, scan_trace_off_table. subst w.
    destruct (netmask_of s (ifa_list idev) =? 0); reflexivity. }
  assert (Hshape : (EvInDevHold idev
                    :: scan_trace s (ifa_list idev) ++ w ++ [EvInDevPut idev]) ++ tail
                   = EvInDevHold idev
                     :: (scan_trace s (ifa_list idev) ++ w) ++ EvInDevPut idev :: tail).
  { cbn [app]. rewrite <- !app_assoc. reflexivity. }
  destruct (keeps_ref_counts _ Hk) as [Hh Hp].
  split; [| split; [| split; [| split]]].
  - intros n. rewrite Hshape. cbn [in_dev_refs].
    rewrite (keeps_ref_refs _ _ Hk). cbn [in_dev_refs]. f_equal. lia.
  - intros Ht. rewrite Hshape. cbn [reads_under_ref].
    apply keeps_ref_reads; [exact Hk | lia |]. cbn [reads_under_ref]. exact Ht.
  - intros Ht. rewrite Hshape. cbn [table_calls_unlocked].
    apply quiet_unlocked; [exact Hk | exact Ho |].
    cbn [table_calls_unlocked]. exact Ht.
  - rewrite (app_assoc (scan_trace s (ifa_list idev)) w).
    change (EvInDevHold idev :: (scan_trace s (ifa_list idev) ++ w) ++ [EvInDevPut idev])
      with ([EvInDevHold idev] ++ (scan_trace s (ifa_list idev) ++ w)
                               ++ [EvInDevPut idev]).
    rewrite (count_holds_app [EvInDevHold idev]),
            (count_holds_app (scan_trace s (ifa_list idev) ++ w)), Hh.
    reflexivity.
  - rewrite (app_assoc (scan_trace s (ifa_list idev)) w).
    change (EvInDevHold idev :: (scan_trace s (ifa_list idev) ++ w) ++ [EvInDevPut idev])
      with ([EvInDevHold idev] ++ (scan_trace s (ifa_list idev) ++ w)
                               ++ [EvInDevPut idev]).
    rewrite (count_puts_app [EvInDevHold idev]),
            (count_puts_app (scan_trace s (ifa_list idev) ++ w)), Hp.
    reflexivity.
Qed.

Lemma build_outcome_refs (cache : nf_conn -> option nf_conntrack_expect)
      (ct : nf_conn) (m : be32) :
  (forall n, in_dev_refs n (snd (build_outcome cache ct m)) = n)
  /\ reads_under_ref 0 (snd (build_outcome cache ct m))
  /\ table_calls_unlocked 0 (snd (build_outcome cache ct m))
  /\ count_holds (snd (build_outcome cache ct m)) = 0%nat
  /\ count_puts (snd (build_outcome cache ct m)) = 0%nat.
Proof.
  unfold build_outcome.
  destruct (m =? 0); [repeat split |].
  destruct (cache ct); cbn; repeat split.
Qed.

(** X3. In every run of the handler the reference on the device's address
    configuration is taken at most once, only for a packet that passed both
    tests, and is given back before the handler returns; entries of the
    address list are read only while it is held; and every call to the
    expectation table is made after it was given back, never while it is
    held. *)
Theorem X3_references_balanced_and_unnested :
  forall (le : bool) (cache : nf_conn -> option nf_conntrack_expect)
         (skb : sk_buff) (protoff : Z) (ct : nf_conn) (ctinfo : ip_conntrack_info),
    (forall n, in_dev_refs n (snd (ssdp_help le cache skb protoff ct ctinfo)) = n)
    /\ reads_under_ref 0 (snd (ssdp_help le cache skb protoff ct ctinfo))
    /\ table_calls_unlocked 0 (snd (ssdp_help le cache skb protoff ct ctinfo))
    /\ count_puts (snd (ssdp_help le cache skb protoff ct ctinfo))
       = count_holds (snd (ssdp_help le cache skb protoff ct ctinfo))
    /\ count_holds (snd (ssdp_help le cache skb protoff ct ctinfo))
       = if matched_dec le skb protoff ct
         then match ip_ptr (dev skb) with Some _ => 1%nat | None => 0%nat end
         else 0%nat.
Proof.
  intros le cache skb protoff ct ctinfo.
  destruct (matched_dec le skb protoff ct) as [[Hd Hp]|Hn].
  - rewrite (ssdp_help_m_search le cache skb protoff ct ctinfo Hd Hp).
    cbn [snd].
    set (tail := snd (build_outcome cache ct (resolved_mask skb (query_src ct)))).
    destruct (build_outcome_refs cache ct (resolved_mask skb (query_src ct)))
      as (T1 & T2 & T3 & T4 & T5). fold tail in T1, T2, T3, T4, T5.
    destruct (resolver_trace_refs skb (query_src ct) tail)
      as (R1 & R2 & R3 & R4 & R5).
    change (help_banner le ct :: resolver_trace skb (query_src ct) ++ tail)
      with ([help_banner le ct] ++ resolver_trace skb (query_src ct) ++ tail).
    rewrite !count_holds_app, !count_puts_app, R4, R5, T4, T5.
    unfold help_banner.
    cbn [app in_dev_refs reads_under_ref table_calls_unlocked].
    split; [intros n; rewrite R1; apply T1 |].
    split; [apply R2, T2 |]. split; [apply R3, T3 |].
    destruct (ip_ptr (dev skb)); split; reflexivity.
  - destruct (ssdp_help_unmatched le cache skb protoff ct ctinfo Hn) as (d & ->).
    unfold help_banner. cbn. repeat split.
Qed.

(** X4. An expectation reaches [nf_ct_expect_related] with flags argument
    0, no [expectfn], expectation flags 0, the default class and no helper,
    whatever the allocator left in the slot; and each of the six members the
    handler writes ([tuple], [mask], [expectfn], [flags], [class], [helper])
    is the same for any other slot the allocator might have returned. *)
Theorem X4_slot_leftovers_do_not_leak :
  forall (le : bool) (cache : nf_conn -> option nf_conntrack_expect)
         (skb : sk_buff) (protoff : Z) (ct : nf_conn) (ctinfo : ip_conntrack_info)
         (e : nf_conntrack_expect) (fl : Z),
    In (EvExpectRelated e fl) (snd (ssdp_help le cache skb protoff ct ctinfo)) ->
    fl = 0
    /\ expectfn e = None
    /\ flags e = 0
    /\ class e = NF_CT_EXPECT_CLASS_DEFAULT
    /\ helper e = None
    /\ forall (cache' : nf_conn -> option nf_conntrack_expect) e',
        In e' (registered (snd (ssdp_help le cache' skb protoff ct ctinfo))) ->
        tuple e' = tuple e
        /\ mask e' = mask e
        /\ expectfn e' = expectfn e
        /\ flags e' = flags e
        /\ class e' = class e
        /\ helper e' = helper e.
Proof.
  intros le cache skb protoff ct ctinfo e fl Hin.
  assert (Hf : In (EvExpectRelated e fl)
                  (filter is_expect_event
                          (snd (ssdp_help le cache skb protoff ct ctinfo))))
    by (apply filter_In; split; [exact Hin | reflexivity]).
  rewrite ssdp_help_table_calls in Hf.
  destruct (matched_dec le skb protoff ct) as [Hm|Hn]; [| destruct Hf].
  destruct (resolved_mask skb (query_src ct) =? 0) eqn:Em; [destruct Hf |].
  destruct (cache ct) as [e0|] eqn:Hc.
  - destruct Hf as [Hx|[Hx|[Hx|[]]]]; try discriminate Hx.
    injection Hx as <- <-.
    repeat (split; [reflexivity |]).
    intros cache' e' Hin'.
    destruct (ssdp_help_registered_inv le cache' skb protoff ct ctinfo e' Hin')
      as (_ & _ & e0' & _ & -> & _ & _).
    repeat split.
  - destruct Hf as [Hx|[]]. discriminate Hx.
Qed.

Lemma X4_witness :
  tuple (built_expect ex_ct (ipv4 true 255 255 255 0) ex_slot')
  = tuple (built_expect ex_ct (ipv4 true 255 255 255 0) ex_slot)
  /\ mask (built_expect ex_ct (ipv4 true 255 255 255 0) ex_slot')
     = mask (built_expect ex_ct (ipv4 true 255 255 255 0) ex_slot)
  /\ flags (built_expect ex_ct (ipv4 true 255 255 255 0) ex_slot') = 0
  /\ flags ex_slot' <> flags ex_slot.
Proof.
  assert (Hin : In (EvExpectRelated
                      (built_expect ex_ct (ipv4 true 255 255 255 0) ex_slot) 0)
                   (snd (ssdp_help true ex_cache
                                   (mk_skb ex_eth0 (ex_packet "M-SEARCH * HTTP/1.1"))
                                   ex_protoff ex_ct IP_CT_NEW)))
    by (vm_compute; tauto).
  assert (Hin' : In (built_expect ex_ct (ipv4 true 255 255 255 0) ex_slot')
                    (registered
                       (snd (ssdp_help true ex_cache'
                                       (mk_skb ex_eth0 (ex_packet "M-SEARCH * HTTP/1.1"))
                                       ex_protoff ex_ct IP_CT_NEW))))
    by (left; reflexivity).
  destruct (X4_slot_leftovers_do_not_leak true ex_cache _ _ _ _ _ _ Hin)
    as (_ & _ & Hfl & _ & _ & Hsame).
  destruct (Hsame ex_cache' _ Hin') as (Ht & Hmk & _ & Hflags & _).
  split; [exact Ht |]. split; [exact Hmk |].
  split; [rewrite Hflags; exact Hfl |].
  vm_compute. discriminate.
Defined.

(** X5. The handler reads two words of the original tuple, its source and
    destination IPv4 address, and the reply tuple: ports, protocol number
    and address family of the original tuple, and [ctinfo], change nothing
    but the first debug line.  The verdict and every later event are the
    same for two flows that agree on those addresses and on the reply tuple
    (a query to 239.255.255.250 on any port is treated alike: selection by
    port is left to the engine). *)
Theorem X5_ports_and_protocol_ignored :
  forall (le : bool) (cache : nf_conn -> option nf_conntrack_expect)
         (skb : sk_buff) (protoff : Z) (ct ct' : nf_conn)
         (ctinfo ctinfo' : ip_conntrack_info),
    same_addresses ct ct' ->
    cache ct = cache ct' ->
    fst (ssdp_help le cache skb protoff ct ctinfo)
    = fst (ssdp_help le cache skb protoff ct' ctinfo')
    /\ tl (snd (ssdp_help le cache skb protoff ct ctinfo))
       = tl (snd (ssdp_help le cache skb protoff ct' ctinfo'))
    /\ hd_error (snd (ssdp_help le cache skb protoff ct ctinfo))
       = Some (help_banner le ct).
Proof.
  intros le cache skb protoff ct ct' ctinfo ctinfo' (Hs & Hd & Hr) Hc.
  destruct (Z.eq_dec (query_dst ct) (cpu_to_be32 le SSDP_MCAST_ADDR)) as [Hmc|Hmc].
  - assert (Hmc' : query_dst ct' = cpu_to_be32 le SSDP_MCAST_ADDR) by congruence.
    destruct (skb_header_pointer skb (to_int (u32 (protoff + sizeof_udphdr)))
                                 SSDP_M_SEARCH_SIZE) as [buf|] eqn:Hp.
    + destruct (list_eq_dec byte_eq_dec buf m_search) as [->|Hb].
      * rewrite (ssdp_help_m_search le cache skb protoff ct ctinfo Hmc Hp),
                (ssdp_help_m_search le cache skb protoff ct' ctinfo' Hmc' Hp).
        cbn [fst snd tl hd_error]. rewrite <- Hs.
        assert (Hb : build_outcome cache ct (resolved_mask skb (query_src ct))
                     = build_outcome cache ct' (resolved_mask skb (query_src ct))).
        { unfold build_outcome, built_expect. rewrite <- Hc, <- Hr. reflexivity. }
        rewrite Hb. repeat split.
      * rewrite (ssdp_help_not_m_search le cache skb protoff ct ctinfo buf Hmc Hp Hb),
                (ssdp_help_not_m_search le cache skb protoff ct' ctinfo' buf Hmc' Hp Hb).
        repeat split.
    + rewrite (ssdp_help_too_small le cache skb protoff ct ctinfo Hmc Hp),
              (ssdp_help_too_small le cache skb protoff ct' ctinfo' Hmc' Hp).
      repeat split.
  - assert (Hmc' : query_dst ct' <> cpu_to_be32 le SSDP_MCAST_ADDR) by congruence.
    rewrite (ssdp_help_not_mcast le cache skb protoff ct ctinfo Hmc),
            (ssdp_help_not_mcast le cache skb protoff ct' ctinfo' Hmc').
    repeat split.
Qed.

Lemma X5_witness :
  fst (ssdp_help true ex_cache (mk_skb ex_eth0 (ex_packet "M-SEARCH * HTTP/1.1"))
                 ex_protoff ex_ct_other_port IP_CT_RELATED) = Some NF_ACCEPT
  /\ registered (tl (snd (ssdp_help true ex_cache
                            (mk_skb ex_eth0 (ex_packet "M-SEARCH * HTTP/1.1"))
                            ex_protoff ex_ct_other_port IP_CT_RELATED)))
     = [built_expect ex_ct (ipv4 true 255 255 255 0) ex_slot].
Proof.
  assert (Hsame : same_addresses ex_ct ex_ct_other_port)
    by (repeat split; reflexivity).
  destruct (X5_ports_and_protocol_ignored true ex_cache
              (mk_skb ex_eth0 (ex_packet "M-SEARCH * HTTP/1.1"))
              ex_protoff ex_ct ex_ct_other_port IP_CT_NEW IP_CT_RELATED
              Hsame eq_refl)
    as (Hv & Ht & _).
  rewrite <- Hv, <- Ht. split; reflexivity.
Defined.

(* ================================================================== *)
(** ** Further properties of the resolver *)

Lemma reads_app (t1 t2 : list event) : reads (t1 ++ t2) = reads t1 ++ reads t2.
Proof. apply flat_map_app. Qed.

(** The entries read during the walk are a prefix of the list that ends at
    the first match, or the whole list when nothing matches. *)
Lemma reads_scan_prefix (s : be32) (l : list in_ifaddr) :
  exists rest,
    l = reads (scan_trace s l) ++ rest
    /\ (first_local s l = None -> rest = [])
    /\ Forall (fun b => ifa_local b <> s) (removelast (reads (scan_trace s l))).
Proof.
  unfold first_local.
  induction l as [|a l (rest & Hl & Hnone & Hall)]; cbn [scan_trace find].
  - exists []. repeat split. constructor.
  - destruct (ifa_local a =? s) eqn:E.
    + exists l. cbn. split; [reflexivity |]. split; [discriminate | constructor].
    + exists rest. cbn [reads flat_map app]. fold (reads (scan_trace s l)).
      split; [rewrite <- Hl; reflexivity |]. split; [exact Hnone |].
      destruct (reads (scan_trace s l)) as [|b r] eqn:Er; [constructor |].
      change (removelast (a :: b :: r)) with (a :: removelast (b :: r)).
      constructor; [apply Z.eqb_neq; exact E | exact Hall].
Qed.

(** X8. The resolver reads the entries of the receiving device's address
    list in list order from the head, without skipping and without reading
    past the end: the entries read are a prefix of the list.  Every entry
    read but the last has a local address other than the source; when no
    entry has the source address the whole list is read, and a device
    without address configuration has nothing read. *)
Theorem X8_resolver_reads_a_prefix :
  forall (skb : sk_buff) (orig : nf_conntrack_tuple),
    exists rest,
      device_addrs (dev skb) = reads (snd (ssdp_src_netmask skb orig)) ++ rest
      /\ (first_local (ip (u3 (src orig))) (device_addrs (dev skb)) = None ->
          rest = [])
      /\ Forall (fun b => ifa_local b <> ip (u3 (src orig)))
                (removelast (reads (snd (ssdp_src_netmask skb orig))))
      /\ (List.length (reads (snd (ssdp_src_netmask skb orig)))
          <= List.length (device_addrs (dev skb)))%nat.
Proof.
  intros skb orig. rewrite ssdp_src_netmask_run. cbn [snd].
  unfold resolver_trace, device_addrs.
  destruct (ip_ptr (dev skb)) as [idev|].
  - set (s := ip (u3 (src orig))).
    destruct (reads_scan_prefix s (ifa_list idev)) as (rest & Hl & Hnone & Hall).
    assert (Hr : reads (EvInDevHold idev
                        :: scan_trace s (ifa_list idev)
                           ++ (if netmask_of s (ifa_list idev) =? 0
                               then [EvWarn (WarnNotAssigned s (name (dev skb)))]
                               else [])
                           ++ [EvInDevPut idev])
                 = reads (scan_trace s (ifa_list idev))).
    { cbn [reads flat_map app].
      fold (reads (scan_trace s (ifa_list idev)
                   ++ (if netmask_of s (ifa_list idev) =? 0
                       then [EvWarn (WarnNotAssigned s (name (dev skb)))]
                       else [])
                   ++ [EvInDevPut idev])).
      rewrite !reads_app.
      destruct (netmask_of s (ifa_list idev) =? 0); cbn; rewrite app_nil_r;
        reflexivity. }
    rewrite Hr. exists rest.
    split; [exact Hl |]. split; [exact Hnone |]. split; [exact Hall |].
    rewrite Hl at 2. rewrite length_app. lia.
  - exists []. cbn [reads flat_map app removelast List.length].
    split; [reflexivity |]. split; [intros _; reflexivity |].
    split; [constructor | lia].
Qed.

Lemma X8_witness :
  exists rest,
    device_addrs (dev (mk_skb ex_eth0_other (ex_packet "M-SEARCH * HTTP/1.1")))
    = reads (snd (ssdp_src_netmask
                    (mk_skb ex_eth0_other (ex_packet "M-SEARCH * HTTP/1.1")) ex_orig))
      ++ rest
    /\ rest = [].
Proof.
  destruct (X8_resolver_reads_a_prefix
              (mk_skb ex_eth0_other (ex_packet "M-SEARCH * HTTP/1.1")) ex_orig)
    as (rest & Hl & Hnone & _).
  exists rest. split; [exact Hl |]. apply Hnone. reflexivity.
Defined.

(* ================================================================== *)
(** ** The registered helper *)

(** X9. Module load makes one registry call, registering [ssdp_helper], and
    returns the registry's answer unchanged; module unload makes one call,
    unregistering that same helper.  The helper is registered for IPv4, UDP
    and, on either byte order, port 1900; and whatever packet its [help]
    entry is called on, every expectation it hands to the table finds its
    policy in the helper's own table: the one policy named "ssdp" with
    [max_expected = 1] and [timeout = 1]. *)
Theorem X9_registered_helper_governs_its_expectations :
  forall (le : bool) (cache : nf_conn -> option nf_conntrack_expect)
         (status : nf_conntrack_helper -> Z),
    exists h,
      nf_conntrack_ssdp_init le cache status = (status h, [CallRegister h])
      /\ nf_conntrack_ssdp_exit le cache = [CallUnregister h]
      /\ helper_name h = "ssdp"%string
      /\ l3num (src (helper_tuple h)) = NFPROTO_IPV4
      /\ protonum (dst (helper_tuple h)) = IPPROTO_UDP
      /\ be16_to_cpu le (udp_port (src (helper_tuple h))) = SSDP_UDP_PORT
      /\ forall skb protoff ct ctinfo e,
          In e (registered (snd (help h skb protoff ct ctinfo))) ->
          policy_of h e = Some ssdp_policy
          /\ max_expected ssdp_policy = 1
          /\ timeout ssdp_policy = 1
          /\ policy_name ssdp_policy = "ssdp"%string.
Proof.
  intros le cache status. exists (ssdp_helper le cache).
  split; [reflexivity |]. split; [reflexivity |]. split; [reflexivity |].
  split; [reflexivity |]. split; [reflexivity |].
  split; [destruct le; reflexivity |].
  intros skb protoff ct ctinfo e Hin.
  change (help (ssdp_helper le cache)) with (ssdp_help le cache) in Hin.
  destruct (ssdp_help_registered_inv le cache skb protoff ct ctinfo e Hin)
    as (_ & _ & e0 & _ & -> & _ & _).
  repeat split.
Qed.

Lemma X9_witness :
  policy_of (ssdp_helper true ex_cache)
            (built_expect ex_ct (ipv4 true 255 255 255 0) ex_slot)
  = Some ssdp_policy.
Proof.
  destruct (X9_registered_helper_governs_its_expectations true ex_cache (fun _ => 0))
    as (h & Hinit & _ & _ & _ & _ & _ & Hpol).
  assert (Hh : ssdp_helper true ex_cache = h) by (injection Hinit; auto).
  subst h.
  exact (proj1 (Hpol (mk_skb ex_eth0 (ex_packet "M-SEARCH * HTTP/1.1"))
                     ex_protoff ex_ct IP_CT_NEW _ (or_introl eq_refl))).
Defined.
